(** * Window tiler: snap resolver and layout store of [src/App.tsx]

    A shallow embedding of the state and the event handlers of the [App]
    component ([createWindow], [unsnapWindow], [closeWindow],
    [handleDragStart], [handleDrag], [handleDrop]) and the properties of its
    snap/unsnap logic.

    Modelling choices.
    - The handlers are embedded twice, with the same control flow and two
      arithmetics.  In the first embedding a JavaScript [number] holding a
      coordinate or an extent is an exact rational ([Q]), compared with [==]
      ([Qeq]); it carries the properties of the control flow and of the
      layout that do not hinge on how a sum is rounded.  Module [IEEE]
      repeats the handlers over binary64 floats, every operation rounded as
      the source's is; it carries the properties in which a sum the source
      computes is compared or stored.
    - A window id (the value of [Date.now()]) is an integer ([Z]); a
      [number | null] or [number | undefined] is an [option Z].
    - JavaScript truthiness is written out: a number is falsy when it is 0,
      [null] and [undefined] are falsy, objects and non-empty strings are truthy.
    - The React state ([windows], [snapIndicator]) and the two refs
      ([draggedWindowId], [dragStartPos]) form one record [AppState]; every
      handler is a function from the state before the event to the state after
      it.  The functional updates queued by [setWindows] are applied in the
      order they are queued; the [windows] and [snapIndicator] a handler closes
      over are those of the state before the event (the component re-renders
      between events).
    - [window.innerWidth] and [window.innerHeight] are read from a [Viewport]
      passed to the handler. *)

From Stdlib Require Import ZArith QArith Qabs List Bool String Lia Lqa.
From Stdlib Require Import PrimFloat.
Import ListNotations.

Open Scope Z_scope.
Open Scope Q_scope.

(** ** Data model *)

Inductive SnapSide : Type := SLeft | SRight | STop | SBottom.

Record WindowData : Type := mkWindow {
  id : Z;
  color : string;
  top : Q;
  left : Q;
  width : Q;
  height : Q;
  isSnapped : bool;
  parent : option Z
}.

(** The preview geometry of the indicator is [number | string] in the source
    (pixels, or a CSS length such as ["50vw"]). *)
Inductive Length : Type :=
| Px (q : Q)
| Css (s : string).

(** [SnapIndicatorState]; its four geometry fields carry the prefix [ind_]
    because [top], [left], [width] and [height] already name the fields of
    [WindowData]. *)
Record SnapIndicatorState : Type := mkIndicator {
  show : bool;
  side : option SnapSide;
  target : option Z;
  ind_top : Length;
  ind_left : Length;
  ind_width : Length;
  ind_height : Length
}.

Record Position : Type := mkPosition { x : Q; y : Q }.

(** The two fields of a [DragEvent] the handlers read. *)
Record DragEvent : Type := mkDragEvent { clientX : Q; clientY : Q }.

Record Viewport : Type := mkViewport { innerWidth : Q; innerHeight : Q }.

Record AppState : Type := mkState {
  windows : list WindowData;
  snapIndicator : SnapIndicatorState;
  draggedWindowId : option Z;
  dragStartPos : option Position
}.

Definition SNAP_THRESHOLD : Q := 30.

Definition EMPTY_INDICATOR : SnapIndicatorState :=
  {| show := false; side := None; target := None;
     ind_top := Px 0; ind_left := Px 0; ind_width := Px 0; ind_height := Px 0 |}.

(** The state of a freshly mounted component. *)
Definition initialState : AppState :=
  {| windows := []; snapIndicator := EMPTY_INDICATOR;
     draggedWindowId := None; dragStartPos := None |}.

(** ** JavaScript primitives *)

(** Truthiness of a number, and of a [number | null]. *)
Definition truthy (n : Z) : bool := negb (n =? 0)%Z.

Definition truthy_opt (o : option Z) : bool :=
  match o with
  | Some n => truthy n
  | None => false
  end.

(** [n === o] for a number [n] and a [number | null] [o]. *)
Definition strict_eq (n : Z) (o : option Z) : bool :=
  match o with
  | Some m => (n =? m)%Z
  | None => false
  end.

(** [a < b] on numbers, as a boolean. *)
Definition Qltb (a b : Q) : bool :=
  (Qnum a * QDen b <? Qnum b * QDen a)%Z.

(** [curr.find((w) => w.id === i)] *)
Definition find_id (i : option Z) (curr : list WindowData) : option WindowData :=
  find (fun w => strict_eq (id w) i) curr.

(** ** Spreads used by the handlers *)

(** [{ ...w, isSnapped: false, parent: null }] *)
Definition cleared (w : WindowData) : WindowData :=
  {| id := id w; color := color w; top := top w; left := left w;
     width := width w; height := height w;
     isSnapped := false; parent := None |}.

(** [{ ...w, top: t, left: l, width: wd, height: h }] *)
Definition with_geometry (w : WindowData) (t l wd h : Q) : WindowData :=
  {| id := id w; color := color w; top := t; left := l;
     width := wd; height := h;
     isSnapped := isSnapped w; parent := parent w |}.

(** [{ ...w, isSnapped: s, parent: p }] *)
Definition with_flags (w : WindowData) (s : bool) (p : option Z) : WindowData :=
  {| id := id w; color := color w; top := top w; left := left w;
     width := width w; height := height w;
     isSnapped := s; parent := p |}.

(** ** Layout store *)

(** [createWindow]: [now] is [Date.now()], [c] the random colour string, [r1]
    and [r2] the two values of [Math.random()] used for [top] and [left]. *)
Definition createWindow (vp : Viewport) (now : Z) (c : string) (r1 r2 : Q)
    (s : AppState) : AppState :=
  {| windows := windows s ++
       [ {| id := now; color := c;
            top := r1 * (innerHeight vp - 200);
            left := r2 * (innerWidth vp - 200);
            width := 300; height := 200;
            isSnapped := false; parent := None |} ];
     snapIndicator := snapIndicator s;
     draggedWindowId := draggedWindowId s;
     dragStartPos := dragStartPos s |}.

(** The updater passed to [setWindows] by [unsnapWindow]. *)
Definition unsnapWindow (windowId : Z) (curr : list WindowData)
    : list WindowData :=
  match find_id (Some windowId) curr with
  | None => curr
  | Some win =>
      if negb (isSnapped win) || negb (truthy_opt (parent win)) then curr
      else
        match find_id (parent win) curr with
        | None =>
            map (fun w => if (id w =? windowId)%Z then cleared w else w) curr
        | Some sibling =>
            let updatedSibling :=
              with_flags
                (with_geometry sibling (top sibling) (left sibling)
                   (width sibling + width win) (height sibling + height win))
                false None in
            map (fun w =>
                   if (id w =? id sibling)%Z then updatedSibling
                   else if (id w =? windowId)%Z then cleared w
                   else w) curr
        end
  end.

Definition set_windows (f : list WindowData -> list WindowData)
    (s : AppState) : AppState :=
  {| windows := f (windows s);
     snapIndicator := snapIndicator s;
     draggedWindowId := draggedWindowId s;
     dragStartPos := dragStartPos s |}.

Definition closeWindow (i : Z) (s : AppState) : AppState :=
  set_windows (filter (fun w => negb (id w =? i)%Z))
    (set_windows (unsnapWindow i) s).

Definition handleDragStart (e : DragEvent) (i : Z) (s : AppState) : AppState :=
  set_windows (unsnapWindow i)
    {| windows := windows s;
       snapIndicator := snapIndicator s;
       draggedWindowId := Some i;
       dragStartPos := Some {| x := clientX e; y := clientY e |} |}.

(** ** Snap resolver

    The part of [handleDrag] that computes the indicator from the pointer, the
    dragged id and the window list (the [for] loop and the screen-edge tests). *)

(** [const inside = ...] *)
Definition inside (cx cy : Q) (w : WindowData) : bool :=
  Qltb (left w) cx && Qltb cx (left w + width w) &&
  Qltb (top w) cy && Qltb cy (top w + height w).

Definition panel_left (w : WindowData) : SnapIndicatorState :=
  {| show := true; side := Some SLeft; target := Some (id w);
     ind_top := Px (top w); ind_left := Px (left w);
     ind_width := Px (width w / 2); ind_height := Px (height w) |}.

Definition panel_right (w : WindowData) : SnapIndicatorState :=
  {| show := true; side := Some SRight; target := Some (id w);
     ind_top := Px (top w); ind_left := Px (left w + width w / 2);
     ind_width := Px (width w / 2); ind_height := Px (height w) |}.

Definition panel_top (w : WindowData) : SnapIndicatorState :=
  {| show := true; side := Some STop; target := Some (id w);
     ind_top := Px (top w); ind_left := Px (left w);
     ind_width := Px (width w); ind_height := Px (height w / 2) |}.

Definition panel_bottom (w : WindowData) : SnapIndicatorState :=
  {| show := true; side := Some SBottom; target := Some (id w);
     ind_top := Px (top w + height w / 2); ind_left := Px (left w);
     ind_width := Px (width w); ind_height := Px (height w / 2) |}.

(** The [if / else if] chain run on the window that contains the pointer;
    [indicator] is the value the variable holds before it. *)
Definition panelIndicator (indicator : SnapIndicatorState) (cx cy : Q)
    (w : WindowData) : SnapIndicatorState :=
  if Qltb cx (left w + SNAP_THRESHOLD) then panel_left w
  else if Qltb (left w + width w - SNAP_THRESHOLD) cx then panel_right w
  else if Qltb cy (top w + SNAP_THRESHOLD) then panel_top w
  else if Qltb (top w + height w - SNAP_THRESHOLD) cy then panel_bottom w
  else indicator.

(** [for (const w of windows) { ... }]: the two [continue]s recurse on the
    rest of the list, the [break] stops at the first window that is not the
    dragged one and contains the pointer. *)
Fixpoint scanWindows (indicator : SnapIndicatorState) (cx cy : Q) (i : Z)
    (ws : list WindowData) : SnapIndicatorState :=
  match ws with
  | [] => indicator
  | w :: rest =>
      if (id w =? i)%Z then scanWindows indicator cx cy i rest
      else if negb (inside cx cy w) then scanWindows indicator cx cy i rest
      else panelIndicator indicator cx cy w
  end.

Definition screen_left : SnapIndicatorState :=
  {| show := true; side := Some SLeft; target := None;
     ind_top := Px 0; ind_left := Px 0;
     ind_width := Css "50vw"; ind_height := Css "100vh" |}.

Definition screen_right : SnapIndicatorState :=
  {| show := true; side := Some SRight; target := None;
     ind_top := Px 0; ind_left := Css "50vw";
     ind_width := Css "50vw"; ind_height := Css "100vh" |}.

Definition screen_top : SnapIndicatorState :=
  {| show := true; side := Some STop; target := None;
     ind_top := Px 0; ind_left := Px 0;
     ind_width := Css "100vw"; ind_height := Css "50vh" |}.

Definition screen_bottom : SnapIndicatorState :=
  {| show := true; side := Some SBottom; target := None;
     ind_top := Css "50vh"; ind_left := Px 0;
     ind_width := Css "100vw"; ind_height := Css "50vh" |}.

(** [if (!indicator.show) { ... }] *)
Definition screenIndicator (vp : Viewport) (indicator : SnapIndicatorState)
    (cx cy : Q) : SnapIndicatorState :=
  if negb (show indicator) then
    if Qltb cx SNAP_THRESHOLD then screen_left
    else if Qltb (innerWidth vp - SNAP_THRESHOLD) cx then screen_right
    else if Qltb cy SNAP_THRESHOLD then screen_top
    else if Qltb (innerHeight vp - SNAP_THRESHOLD) cy then screen_bottom
    else indicator
  else indicator.

(** The indicator [handleDrag] publishes for the pointer [(cx, cy)], the
    dragged id [i] and the window list [ws]. *)
Definition resolveIndicator (vp : Viewport) (cx cy : Q) (i : Z)
    (ws : list WindowData) : SnapIndicatorState :=
  screenIndicator vp (scanWindows EMPTY_INDICATOR cx cy i ws) cx cy.

(** ** Drag and drop *)

Definition is_none {A : Type} (o : option A) : bool :=
  match o with
  | Some _ => false
  | None => true
  end.

(** [{ ...w, left: w.left + dx, top: w.top + dy }] on the dragged window. *)
Definition translate (i : Z) (dx dy : Q) (w : WindowData) : WindowData :=
  if (id w =? i)%Z
  then with_geometry w (top w + dy) (left w + dx) (width w) (height w)
  else w.

Definition handleDrag (vp : Viewport) (e : DragEvent) (i : Z) (s : AppState)
    : AppState :=
  if negb (strict_eq i (draggedWindowId s))
     || is_none (dragStartPos s)
     || Qeq_bool (clientX e) 0
  then s
  else
    match dragStartPos s with
    | None => s
    | Some p =>
        let dx := clientX e - x p in
        let dy := clientY e - y p in
        {| windows := map (translate i dx dy) (windows s);
           snapIndicator :=
             resolveIndicator vp (clientX e) (clientY e) i (windows s);
           draggedWindowId := draggedWindowId s;
           dragStartPos := Some {| x := clientX e; y := clientY e |} |}
    end.

(** [updates: Record<number, WindowData>]: an assignment [updates[k] = v] puts
    the binding in front, a read takes the first binding of the key, so a
    later assignment to the same key replaces the earlier one. *)
Definition Updates : Type := list (Z * WindowData).

Definition assign (k : Z) (v : WindowData) (u : Updates) : Updates :=
  (k, v) :: u.

Fixpoint lookup (k : Z) (u : Updates) : option WindowData :=
  match u with
  | [] => None
  | (k', v) :: rest => if (k =? k')%Z then Some v else lookup k rest
  end.

(** [{ ...dragged, isSnapped: true, parent: target, top, left, width, height }] *)
Definition snapped_onto (dragged : WindowData) (tg : Z) (t l wd h : Q)
    : WindowData :=
  with_geometry (with_flags dragged true (Some tg)) t l wd h.

(** The [switch (side)] of [handleDrop]. *)
Definition splitUpdates (sd : SnapSide) (tg draggedId : Z)
    (t dragged : WindowData) : Updates :=
  let halfW := width t / 2 in
  let halfH := height t / 2 in
  match sd with
  | SLeft =>
      assign draggedId
        (snapped_onto dragged tg (top t) (left t) halfW (height t))
        (assign tg
           (with_geometry t (top t) (left t + halfW) halfW (height t)) [])
  | SRight =>
      assign draggedId
        (snapped_onto dragged tg (top t) (left t + halfW) halfW (height t))
        (assign tg (with_geometry t (top t) (left t) halfW (height t)) [])
  | STop =>
      assign draggedId
        (snapped_onto dragged tg (top t) (left t) (width t) halfH)
        (assign tg
           (with_geometry t (top t + halfH) (left t) (width t) halfH) [])
  | SBottom =>
      assign draggedId
        (snapped_onto dragged tg (top t + halfH) (left t) (width t) halfH)
        (assign tg (with_geometry t (top t) (left t) (width t) halfH) [])
  end.

(** [{ ...w, isSnapped: true, parent: null, ...snapMap[side] }] *)
Definition snapMap (vp : Viewport) (sd : SnapSide) (w : WindowData)
    : WindowData :=
  let fullW := innerWidth vp in
  let fullH := innerHeight vp in
  let w' := with_flags w true None in
  match sd with
  | SLeft => with_geometry w' 0 0 (fullW / 2) fullH
  | SRight => with_geometry w' 0 (fullW / 2) (fullW / 2) fullH
  | STop => with_geometry w' 0 0 fullW (fullH / 2)
  | SBottom => with_geometry w' (fullH / 2) 0 fullW (fullH / 2)
  end.

(** The updater [handleDrop] passes to [setWindows]. *)
Definition dropUpdate (vp : Viewport) (draggedId : Z)
    (sd : option SnapSide) (tgt : option Z) (curr : list WindowData)
    : list WindowData :=
  match find_id (Some draggedId) curr, sd with
  | Some dragged, Some sd =>
      match tgt with
      | Some tg =>
          if truthy tg then
            match find_id (Some tg) curr with
            | None => curr
            | Some t =>
                let updates := splitUpdates sd tg draggedId t dragged in
                map (fun w => match lookup (id w) updates with
                              | Some u => u
                              | None => w
                              end) curr
            end
          else
            map (fun w => if (id w =? draggedId)%Z then snapMap vp sd w else w)
              curr
      | None =>
          map (fun w => if (id w =? draggedId)%Z then snapMap vp sd w else w)
            curr
      end
  | _, _ => curr
  end.

Definition handleDrop (vp : Viewport) (s : AppState) : AppState :=
  match draggedWindowId s with
  | None => s
  | Some draggedId =>
      if negb (show (snapIndicator s)) || negb (truthy draggedId) then s
      else
        {| windows :=
             dropUpdate vp draggedId (side (snapIndicator s))
               (target (snapIndicator s)) (windows s);
           snapIndicator := EMPTY_INDICATOR;
           draggedWindowId := None;
           dragStartPos := None |}
  end.


(** ** Events and reachable states

    The component changes state only through its handlers.  An event carries
    the id of the [Window] that raised it; every id is a value [Date.now()]
    returned, hence positive. *)

Inductive Event : Type :=
| EvCreate (vp : Viewport) (now : Z) (c : string) (r1 r2 : Q)
| EvClose (i : Z)
| EvDragStart (e : DragEvent) (i : Z)
| EvDrag (vp : Viewport) (e : DragEvent) (i : Z)
| EvDrop (vp : Viewport).

Definition dispatch (ev : Event) (s : AppState) : AppState :=
  match ev with
  | EvCreate vp now c r1 r2 => createWindow vp now c r1 r2 s
  | EvClose i => closeWindow i s
  | EvDragStart e i => handleDragStart e i s
  | EvDrag vp e i => handleDrag vp e i s
  | EvDrop vp => handleDrop vp s
  end.

Definition event_id (ev : Event) : option Z :=
  match ev with
  | EvCreate _ now _ _ _ => Some now
  | EvClose i => Some i
  | EvDragStart _ i => Some i
  | EvDrag _ _ i => Some i
  | EvDrop _ => None
  end.

Definition well_formed (ev : Event) : Prop :=
  forall i, event_id ev = Some i -> (0 < i)%Z.

Definition run (evs : list Event) (s : AppState) : AppState :=
  fold_left (fun s ev => dispatch ev s) evs s.

Inductive reachable : AppState -> Prop :=
| reach_init : reachable initialState
| reach_step (ev : Event) (s : AppState) :
    reachable s -> well_formed ev -> reachable (dispatch ev s).

(** ** Vocabulary of the properties *)

Definition ids (curr : list WindowData) : list Z := map id curr.

(** The point [(px, py)] lies in the rectangle of [w]; the rectangle contains
    its top and left edges and not its bottom and right ones, so that two
    rectangles sharing an edge share no point. *)
Definition covers (w : WindowData) (px py : Q) : Prop :=
  (left w <= px /\ px < left w + width w) /\
  (top w <= py /\ py < top w + height w).

(** [a] and [b] tile the rectangle of [t]: together they cover exactly its
    points, and no point lies in both. *)
Definition tiles (t a b : WindowData) : Prop :=
  (forall px py, covers t px py <-> covers a px py \/ covers b px py) /\
  (forall px py, ~ (covers a px py /\ covers b px py)).

Definition same_geometry (a b : WindowData) : Prop :=
  top a == top b /\ left a == left b /\
  width a == width b /\ height a == height b.

(** The first window of the list, other than the dragged one, that contains
    the pointer. *)
Definition first_containing (cx cy : Q) (i : Z) (ws : list WindowData)
    : option WindowData :=
  find (fun w => negb (id w =? i)%Z && inside cx cy w) ws.

(** ** Concrete windows, viewport and runs used below *)

Definition vp1200x800 : Viewport :=
  {| innerWidth := 1200; innerHeight := 800 |}.

Definition black : string := "rgb(0,0,0)".

(** Two windows are created, the first at the top-left corner, the second at
    [(left 500, top 300)]; the second is picked up by its title bar. *)
Definition two_windows_dragging : AppState :=
  run [ EvCreate vp1200x800 1 black 0 0;
        EvCreate vp1200x800 2 black (1 # 2) (1 # 2);
        EvDragStart {| clientX := 510; clientY := 310 |} 2 ]
      initialState.

(** ... and dragged until the pointer is at [(10, 100)], inside the first
    window and 10 pixels from its left edge. *)
Definition over_left_edge : AppState :=
  dispatch (EvDrag vp1200x800 {| clientX := 10; clientY := 100 |} 2)
    two_windows_dragging.

(** The first window is closed while the second is still being dragged. *)
Definition target_closed : AppState :=
  dispatch (EvClose 1) over_left_edge.

(** A window is created, picked up, dragged until the pointer is at
    [(5, 400)] near the left screen edge, and dropped: it now fills the left
    half of the screen, with [isSnapped = true] and [parent = null]. *)
Definition snapped_to_left_half : AppState :=
  run [ EvCreate vp1200x800 1 black (1 # 2) (1 # 2);
        EvDragStart {| clientX := 510; clientY := 310 |} 1;
        EvDrag vp1200x800 {| clientX := 5; clientY := 400 |} 1;
        EvDrop vp1200x800 ]
      initialState.

(** The window of that state. *)
Definition left_half_window : WindowData :=
  {| id := 1; color := black; top := 0; left := 0; width := 1200 / 2;
     height := 800; isSnapped := true; parent := None |}.

(** The panel of the edge-precedence example. *)
Definition corner_window : WindowData :=
  {| id := 1; color := black; top := 0; left := 0; width := 300;
     height := 200; isSnapped := false; parent := None |}.

(** A window created near the right of the screen reaches past the screen
    edge ([left = 950], [width = 300] on a screen 1200 wide); a second window
    is created at the top-left corner and picked up. *)
Definition wide_window_dragging : AppState :=
  run [ EvCreate vp1200x800 1 black (1 # 2) (19 # 20);
        EvCreate vp1200x800 2 black 0 0;
        EvDragStart {| clientX := 10; clientY := 10 |} 2 ]
      initialState.

(** ... and dragged until the pointer is at [(1180, 400)], inside the first
    window. *)
Definition over_wide_window : AppState :=
  dispatch (EvDrag vp1200x800 {| clientX := 1180; clientY := 400 |} 2)
    wide_window_dragging.

(** What holds in every reachable state: the ids in the list, the recorded
    dragged id and the target of the indicator are positive, and an indicator
    is shown only while a dragged id is recorded. *)
Definition session_invariant (s : AppState) : Prop :=
  (forall i, In i (ids (windows s)) -> (0 < i)%Z) /\
  (forall d, draggedWindowId s = Some d -> (0 < d)%Z) /\
  (show (snapIndicator s) = true -> draggedWindowId s <> None) /\
  (forall t, target (snapIndicator s) = Some t -> (0 < t)%Z).

(** A window that records a parent is marked as snapped. *)
Definition flags_consistent (w : WindowData) : Prop :=
  parent w <> None -> isSnapped w = true.

(** The rectangle of the viewport, carried by a window record so that
    [covers] and [tiles] apply to it. *)
Definition screen_rect (vp : Viewport) : WindowData :=
  {| id := 0; color := ""; top := 0; left := 0;
     width := innerWidth vp; height := innerHeight vp;
     isSnapped := false; parent := None |}.

(** Three windows are created; the second is picked up, dragged over the
    left edge of the first and dropped there, the third stays where it was
    created ([left 750], [top 450]). *)
Definition split_with_bystander : AppState :=
  run [ EvCreate vp1200x800 1 black 0 0;
        EvCreate vp1200x800 2 black (1 # 2) (1 # 2);
        EvCreate vp1200x800 3 black (3 # 4) (3 # 4);
        EvDragStart {| clientX := 510; clientY := 310 |} 2;
        EvDrag vp1200x800 {| clientX := 10; clientY := 100 |} 2;
        EvDrop vp1200x800 ]
      initialState.

(** The second window of [two_windows_dragging], as [createWindow] made it. *)
Definition second_window : WindowData :=
  {| id := 2; color := black; top := (1 # 2) * (800 - 200);
     left := (1 # 2) * (1200 - 200); width := 300; height := 200;
     isSnapped := false; parent := None |}.

(** * The handlers over IEEE doubles

    The same handlers, with every JavaScript [number] that holds a coordinate
    or an extent as a binary64 float: each [+], [-], [*] and [/] rounds as
    the source's does, [<] and [>] are the IEEE comparisons and [=== 0] the
    IEEE equality.  This module carries the properties in which a sum the
    source computes is compared or stored; the definitions follow the source
    line by line and differ from those above in the arithmetic only. *)

Module IEEE.

Local Open Scope float_scope.

Record WindowData : Type := mkWindow {
  id : Z;
  color : string;
  top : float;
  left : float;
  width : float;
  height : float;
  isSnapped : bool;
  parent : option Z
}.

Inductive Length : Type :=
| Px (q : float)
| Css (s : string).

Record SnapIndicatorState : Type := mkIndicator {
  show : bool;
  side : option SnapSide;
  target : option Z;
  ind_top : Length;
  ind_left : Length;
  ind_width : Length;
  ind_height : Length
}.

Record Position : Type := mkPosition { x : float; y : float }.

Record DragEvent : Type := mkDragEvent { clientX : float; clientY : float }.

Record Viewport : Type := mkViewport { innerWidth : float; innerHeight : float }.

Record AppState : Type := mkState {
  windows : list WindowData;
  snapIndicator : SnapIndicatorState;
  draggedWindowId : option Z;
  dragStartPos : option Position
}.

Definition SNAP_THRESHOLD : float := 30.

Definition EMPTY_INDICATOR : SnapIndicatorState :=
  {| show := false; side := None; target := None;
     ind_top := Px 0; ind_left := Px 0; ind_width := Px 0; ind_height := Px 0 |}.

Definition initialState : AppState :=
  {| windows := []; snapIndicator := EMPTY_INDICATOR;
     draggedWindowId := None; dragStartPos := None |}.

(** [curr.find((w) => w.id === i)] *)
Definition find_id (i : option Z) (curr : list WindowData) : option WindowData :=
  find (fun w => strict_eq (id w) i) curr.

(** [{ ...w, isSnapped: false, parent: null }] *)
Definition cleared (w : WindowData) : WindowData :=
  {| id := id w; color := color w; top := top w; left := left w;
     width := width w; height := height w;
     isSnapped := false; parent := None |}.

(** [{ ...w, top: t, left: l, width: wd, height: h }] *)
Definition with_geometry (w : WindowData) (t l wd h : float) : WindowData :=
  {| id := id w; color := color w; top := t; left := l;
     width := wd; height := h;
     isSnapped := isSnapped w; parent := parent w |}.

(** [{ ...w, isSnapped: s, parent: p }] *)
Definition with_flags (w : WindowData) (s : bool) (p : option Z) : WindowData :=
  {| id := id w; color := color w; top := top w; left := left w;
     width := width w; height := height w;
     isSnapped := s; parent := p |}.

(** [createWindow]: [now] is [Date.now()], [c] the colour string, [r1] and
    [r2] the two values of [Math.random()] used for [top] and [left]. *)
Definition createWindow (vp : Viewport) (now : Z) (c : string) (r1 r2 : float)
    (s : AppState) : AppState :=
  {| windows := windows s ++
       [ {| id := now; color := c;
            top := r1 * (innerHeight vp - 200);
            left := r2 * (innerWidth vp - 200);
            width := 300; height := 200;
            isSnapped := false; parent := None |} ];
     snapIndicator := snapIndicator s;
     draggedWindowId := draggedWindowId s;
     dragStartPos := dragStartPos s |}.

(** The updater passed to [setWindows] by [unsnapWindow]. *)
Definition unsnapWindow (windowId : Z) (curr : list WindowData)
    : list WindowData :=
  match find_id (Some windowId) curr with
  | None => curr
  | Some win =>
      if negb (isSnapped win) || negb (truthy_opt (parent win)) then curr
      else
        match find_id (parent win) curr with
        | None =>
            map (fun w => if (id w =? windowId)%Z then cleared w else w) curr
        | Some sibling =>
            let updatedSibling :=
              with_flags
                (with_geometry sibling (top sibling) (left sibling)
                   (width sibling + width win) (height sibling + height win))
                false None in
            map (fun w =>
                   if (id w =? id sibling)%Z then updatedSibling
                   else if (id w =? windowId)%Z then cleared w
                   else w) curr
        end
  end.

Definition set_windows (f : list WindowData -> list WindowData)
    (s : AppState) : AppState :=
  {| windows := f (windows s);
     snapIndicator := snapIndicator s;
     draggedWindowId := draggedWindowId s;
     dragStartPos := dragStartPos s |}.

Definition closeWindow (i : Z) (s : AppState) : AppState :=
  set_windows (filter (fun w => negb (id w =? i)%Z))
    (set_windows (unsnapWindow i) s).

Definition handleDragStart (e : DragEvent) (i : Z) (s : AppState) : AppState :=
  set_windows (unsnapWindow i)
    {| windows := windows s;
       snapIndicator := snapIndicator s;
       draggedWindowId := Some i;
       dragStartPos := Some {| x := clientX e; y := clientY e |} |}.

(** [const inside = ...]: [a > b] is [b < a]. *)
Definition inside (cx cy : float) (w : WindowData) : bool :=
  (left w <? cx) && (cx <? left w + width w) &&
  (top w <? cy) && (cy <? top w + height w).

(** The four tests of the [if / else if] chain, by side. *)
Definition edge_test (sd : SnapSide) (cx cy : float) (w : WindowData) : bool :=
  match sd with
  | SLeft => cx <? left w + SNAP_THRESHOLD
  | SRight => left w + width w - SNAP_THRESHOLD <? cx
  | STop => cy <? top w + SNAP_THRESHOLD
  | SBottom => top w + height w - SNAP_THRESHOLD <? cy
  end.

(** The indicator each branch of the chain assigns. *)
Definition panel_half (sd : SnapSide) (w : WindowData) : SnapIndicatorState :=
  match sd with
  | SLeft =>
      {| show := true; side := Some SLeft; target := Some (id w);
         ind_top := Px (top w); ind_left := Px (left w);
         ind_width := Px (width w / 2); ind_height := Px (height w) |}
  | SRight =>
      {| show := true; side := Some SRight; target := Some (id w);
         ind_top := Px (top w); ind_left := Px (left w + width w / 2);
         ind_width := Px (width w / 2); ind_height := Px (height w) |}
  | STop =>
      {| show := true; side := Some STop; target := Some (id w);
         ind_top := Px (top w); ind_left := Px (left w);
         ind_width := Px (width w); ind_height := Px (height w / 2) |}
  | SBottom =>
      {| show := true; side := Some SBottom; target := Some (id w);
         ind_top := Px (top w + height w / 2); ind_left := Px (left w);
         ind_width := Px (width w); ind_height := Px (height w / 2) |}
  end.

(** The [if / else if] chain run on the window that contains the pointer;
    [indicator] is the value the variable holds before it. *)
Definition panelIndicator (indicator : SnapIndicatorState) (cx cy : float)
    (w : WindowData) : SnapIndicatorState :=
  if cx <? left w + SNAP_THRESHOLD then panel_half SLeft w
  else if left w + width w - SNAP_THRESHOLD <? cx then panel_half SRight w
  else if cy <? top w + SNAP_THRESHOLD then panel_half STop w
  else if top w + height w - SNAP_THRESHOLD <? cy then panel_half SBottom w
  else indicator.

(** [for (const w of windows) { ... }] *)
Fixpoint scanWindows (indicator : SnapIndicatorState) (cx cy : float) (i : Z)
    (ws : list WindowData) : SnapIndicatorState :=
  match ws with
  | [] => indicator
  | w :: rest =>
      if (id w =? i)%Z then scanWindows indicator cx cy i rest
      else if negb (inside cx cy w) then scanWindows indicator cx cy i rest
      else panelIndicator indicator cx cy w
  end.

Definition screen_left : SnapIndicatorState :=
  {| show := true; side := Some SLeft; target := None;
     ind_top := Px 0; ind_left := Px 0;
     ind_width := Css "50vw"; ind_height := Css "100vh" |}.

Definition screen_right : SnapIndicatorState :=
  {| show := true; side := Some SRight; target := None;
     ind_top := Px 0; ind_left := Css "50vw";
     ind_width := Css "50vw"; ind_height := Css "100vh" |}.

Definition screen_top : SnapIndicatorState :=
  {| show := true; side := Some STop; target := None;
     ind_top := Px 0; ind_left := Px 0;
     ind_width := Css "100vw"; ind_height := Css "50vh" |}.

Definition screen_bottom : SnapIndicatorState :=
  {| show := true; side := Some SBottom; target := None;
     ind_top := Css "50vh"; ind_left := Px 0;
     ind_width := Css "100vw"; ind_height := Css "50vh" |}.

(** [if (!indicator.show) { ... }] *)
Definition screenIndicator (vp : Viewport) (indicator : SnapIndicatorState)
    (cx cy : float) : SnapIndicatorState :=
  if negb (show indicator) then
    if cx <? SNAP_THRESHOLD then screen_left
    else if innerWidth vp - SNAP_THRESHOLD <? cx then screen_right
    else if cy <? SNAP_THRESHOLD then screen_top
    else if innerHeight vp - SNAP_THRESHOLD <? cy then screen_bottom
    else indicator
  else indicator.

Definition resolveIndicator (vp : Viewport) (cx cy : float) (i : Z)
    (ws : list WindowData) : SnapIndicatorState :=
  screenIndicator vp (scanWindows EMPTY_INDICATOR cx cy i ws) cx cy.

(** [{ ...w, left: w.left + dx, top: w.top + dy }] on the dragged window. *)
Definition translate (i : Z) (dx dy : float) (w : WindowData) : WindowData :=
  if (id w =? i)%Z
  then with_geometry w (top w + dy) (left w + dx) (width w) (height w)
  else w.

Definition handleDrag (vp : Viewport) (e : DragEvent) (i : Z) (s : AppState)
    : AppState :=
  if negb (strict_eq i (draggedWindowId s))
     || is_none (dragStartPos s)
     || (clientX e =? 0)
  then s
  else
    match dragStartPos s with
    | None => s
    | Some p =>
        let dx := clientX e - x p in
        let dy := clientY e - y p in
        {| windows := map (translate i dx dy) (windows s);
           snapIndicator :=
             resolveIndicator vp (clientX e) (clientY e) i (windows s);
           draggedWindowId := draggedWindowId s;
           dragStartPos := Some {| x := clientX e; y := clientY e |} |}
    end.

(** [updates: Record<number, WindowData>], the last assignment to a key in
    front. *)
Definition Updates : Type := list (Z * WindowData).

Definition assign (k : Z) (v : WindowData) (u : Updates) : Updates :=
  (k, v) :: u.

Fixpoint lookup (k : Z) (u : Updates) : option WindowData :=
  match u with
  | [] => None
  | (k', v) :: rest => if (k =? k')%Z then Some v else lookup k rest
  end.

(** [{ ...dragged, isSnapped: true, parent: target, top, left, width, height }] *)
Definition snapped_onto (dragged : WindowData) (tg : Z) (t l wd h : float)
    : WindowData :=
  with_geometry (with_flags dragged true (Some tg)) t l wd h.

(** The [switch (side)] of [handleDrop]. *)
Definition splitUpdates (sd : SnapSide) (tg draggedId : Z)
    (t dragged : WindowData) : Updates :=
  let halfW := width t / 2 in
  let halfH := height t / 2 in
  match sd with
  | SLeft =>
      assign draggedId
        (snapped_onto dragged tg (top t) (left t) halfW (height t))
        (assign tg
           (with_geometry t (top t) (left t + halfW) halfW (height t)) [])
  | SRight =>
      assign draggedId
        (snapped_onto dragged tg (top t) (left t + halfW) halfW (height t))
        (assign tg (with_geometry t (top t) (left t) halfW (height t)) [])
  | STop =>
      assign draggedId
        (snapped_onto dragged tg (top t) (left t) (width t) halfH)
        (assign tg
           (with_geometry t (top t + halfH) (left t) (width t) halfH) [])
  | SBottom =>
      assign draggedId
        (snapped_onto dragged tg (top t + halfH) (left t) (width t) halfH)
        (assign tg (with_geometry t (top t) (left t) (width t) halfH) [])
  end.

(** [{ ...w, isSnapped: true, parent: null, ...snapMap[side] }] *)
Definition snapMap (vp : Viewport) (sd : SnapSide) (w : WindowData)
    : WindowData :=
  let fullW := innerWidth vp in
  let fullH := innerHeight vp in
  let w' := with_flags w true None in
  match sd with
  | SLeft => with_geometry w' 0 0 (fullW / 2) fullH
  | SRight => with_geometry w' 0 (fullW / 2) (fullW / 2) fullH
  | STop => with_geometry w' 0 0 fullW (fullH / 2)
  | SBottom => with_geometry w' (fullH / 2) 0 fullW (fullH / 2)
  end.

(** The updater [handleDrop] passes to [setWindows]. *)
Definition dropUpdate (vp : Viewport) (draggedId : Z)
    (sd : option SnapSide) (tgt : option Z) (curr : list WindowData)
    : list WindowData :=
  match find_id (Some draggedId) curr, sd with
  | Some dragged, Some sd =>
      match tgt with
      | Some tg =>
          if truthy tg then
            match find_id (Some tg) curr with
            | None => curr
            | Some t =>
                let updates := splitUpdates sd tg draggedId t dragged in
                map (fun w => match lookup (id w) updates with
                              | Some u => u
                              | None => w
                              end) curr
            end
          else
            map (fun w => if (id w =? draggedId)%Z then snapMap vp sd w else w)
              curr
      | None =>
          map (fun w => if (id w =? draggedId)%Z then snapMap vp sd w else w)
            curr
      end
  | _, _ => curr
  end.

Definition handleDrop (vp : Viewport) (s : AppState) : AppState :=
  match draggedWindowId s with
  | None => s
  | Some draggedId =>
      if negb (show (snapIndicator s)) || negb (truthy draggedId) then s
      else
        {| windows :=
             dropUpdate vp draggedId (side (snapIndicator s))
               (target (snapIndicator s)) (windows s);
           snapIndicator := EMPTY_INDICATOR;
           draggedWindowId := None;
           dragStartPos := None |}
  end.

(** ** Events and runs *)

Inductive Event : Type :=
| EvCreate (vp : Viewport) (now : Z) (c : string) (r1 r2 : float)
| EvClose (i : Z)
| EvDragStart (e : DragEvent) (i : Z)
| EvDrag (vp : Viewport) (e : DragEvent) (i : Z)
| EvDrop (vp : Viewport).

Definition dispatch (ev : Event) (s : AppState) : AppState :=
  match ev with
  | EvCreate vp now c r1 r2 => createWindow vp now c r1 r2 s
  | EvClose i => closeWindow i s
  | EvDragStart e i => handleDragStart e i s
  | EvDrag vp e i => handleDrag vp e i s
  | EvDrop vp => handleDrop vp s
  end.

Definition run (evs : list Event) (s : AppState) : AppState :=
  fold_left (fun s ev => dispatch ev s) evs s.

(** ** Vocabulary of the properties *)

(** The first window of the list, other than the dragged one, that contains
    the pointer. *)
Definition first_containing (cx cy : float) (i : Z) (ws : list WindowData)
    : option WindowData :=
  find (fun w => negb (id w =? i)%Z && inside cx cy w) ws.

(** The first edge, in the order left, right, top, bottom, whose test the
    pointer passes: the pointer is within [SNAP_THRESHOLD] of that edge, as
    the source measures it. *)
Definition first_near (cx cy : float) (w : WindowData) : option SnapSide :=
  find (fun sd => edge_test sd cx cy w) [SLeft; SRight; STop; SBottom].

(** ** Concrete runs used below, on a 1200 by 800 viewport *)

Definition vp1200x800 : Viewport :=
  {| innerWidth := 1200; innerHeight := 800 |}.

(** The panel of the edge-precedence example. *)
Definition corner_window : WindowData :=
  {| id := 1; color := black; top := 0; left := 0; width := 300;
     height := 200; isSnapped := false; parent := None |}.

(** Two windows are created, the first at the top-left corner, the second at
    [(left 500, top 300)]; the second is picked up by its title bar. *)
Definition two_windows_dragging : AppState :=
  run [ EvCreate vp1200x800 1 black 0 0;
        EvCreate vp1200x800 2 black 0.5 0.5;
        EvDragStart {| clientX := 510; clientY := 310 |} 2 ]
      initialState.

(** ... and dragged until the pointer is at [(10, 100)], inside the first
    window and 10 pixels from its left edge. *)
Definition over_left_edge : AppState :=
  dispatch (EvDrag vp1200x800 {| clientX := 10; clientY := 100 |} 2)
    two_windows_dragging.


(** A window created near the right of the screen reaches past the screen
    edge ([left = 937.5], [width = 300] on a screen 1200 wide); a second
    window is created at the top-left corner and picked up. *)
Definition wide_window_dragging : AppState :=
  run [ EvCreate vp1200x800 1 black 0.5 0.9375;
        EvCreate vp1200x800 2 black 0 0;
        EvDragStart {| clientX := 10; clientY := 10 |} 2 ]
      initialState.

(** ... and dragged until the pointer is at [(1180, 400)], inside the first
    window. *)
Definition over_wide_window : AppState :=
  dispatch (EvDrag vp1200x800 {| clientX := 1180; clientY := 400 |} 2)
    wide_window_dragging.


End IEEE.

(** * Properties *)

(** ** Basic facts *)

(** [lra] with the halves [_ / 2] written as products. *)
Ltac halves := unfold Qdiv in *; change (/ 2) with (1 # 2) in *; lra.

Lemma Qltb_lt (a b : Q) : Qltb a b = true <-> a < b.
Proof. unfold Qltb, Qlt. apply Z.ltb_lt. Qed.

Lemma truthy_true (n : Z) : truthy n = true <-> n <> 0%Z.
Proof.
  unfold truthy. rewrite negb_true_iff. apply Z.eqb_neq.
Qed.

Lemma find_id_Some (i : Z) (curr : list WindowData) (w : WindowData) :
  find_id (Some i) curr = Some w -> In w curr /\ id w = i.
Proof.
  unfold find_id. intros H. apply find_some in H. simpl in H.
  destruct H as [Hin Heq]. apply Z.eqb_eq in Heq. auto.
Qed.

(** ** The handlers keep the ids of the list, in order *)

Lemma map_keeps_ids (f : WindowData -> WindowData) (curr : list WindowData) :
  (forall w, In w curr -> id (f w) = id w) -> ids (map f curr) = ids curr.
Proof.
  unfold ids. intros Hf. rewrite map_map. apply map_ext_in. exact Hf.
Qed.

Lemma unsnapWindow_ids (i : Z) (curr : list WindowData) :
  ids (unsnapWindow i curr) = ids curr.
Proof.
  unfold unsnapWindow.
  destruct (find_id (Some i) curr) as [win|]; [|reflexivity].
  destruct (negb (isSnapped win) || negb (truthy_opt (parent win)));
    [reflexivity|].
  destruct (find_id (parent win) curr) as [sibling|] eqn:Hsib.
  - apply map_keeps_ids. intros w _.
    destruct (id w =? id sibling)%Z eqn:E.
    + apply Z.eqb_eq in E. simpl. symmetry. exact E.
    + destruct (id w =? i)%Z; reflexivity.
  - apply map_keeps_ids. intros w _. destruct (id w =? i)%Z; reflexivity.
Qed.

Lemma translate_ids (i : Z) (dx dy : Q) (curr : list WindowData) :
  ids (map (translate i dx dy) curr) = ids curr.
Proof.
  apply map_keeps_ids. intros w _. unfold translate.
  destruct (id w =? i)%Z; reflexivity.
Qed.

Lemma lookup_splitUpdates_id (sd : SnapSide) (tg d k : Z)
    (t dragged u : WindowData) :
  id t = tg -> id dragged = d ->
  lookup k (splitUpdates sd tg d t dragged) = Some u -> id u = k.
Proof.
  intros Ht Hd.
  destruct sd; simpl; unfold assign; simpl;
    (destruct (k =? d)%Z eqn:Ed;
     [ intros H; injection H as <-; simpl; apply Z.eqb_eq in Ed; congruence
     | destruct (k =? tg)%Z eqn:Et;
       [ intros H; injection H as <-; simpl; apply Z.eqb_eq in Et; congruence
       | discriminate ] ]).
Qed.

Lemma snapMap_id (vp : Viewport) (sd : SnapSide) (w : WindowData) :
  id (snapMap vp sd w) = id w.
Proof. destruct sd; reflexivity. Qed.

Lemma dropUpdate_ids (vp : Viewport) (d : Z) (sd : option SnapSide)
    (tgt : option Z) (curr : list WindowData) :
  ids (dropUpdate vp d sd tgt curr) = ids curr.
Proof.
  unfold dropUpdate.
  destruct (find_id (Some d) curr) as [dragged|] eqn:Hd; [|reflexivity].
  destruct sd as [sd|]; [|reflexivity].
  assert (Hfull : ids (map (fun w => if (id w =? d)%Z then snapMap vp sd w
                                     else w) curr) = ids curr).
  { apply map_keeps_ids. intros w _.
    destruct (id w =? d)%Z; [apply snapMap_id | reflexivity]. }
  destruct tgt as [tg|]; [|exact Hfull].
  destruct (truthy tg); [|exact Hfull].
  destruct (find_id (Some tg) curr) as [t|] eqn:Ht; [|reflexivity].
  apply find_id_Some in Hd. apply find_id_Some in Ht.
  apply map_keeps_ids. intros w _.
  destruct (lookup (id w) (splitUpdates sd tg d t dragged)) as [u|] eqn:Hu;
    [|reflexivity].
  eapply lookup_splitUpdates_id; [| |exact Hu]; tauto.
Qed.

Lemma handleDragStart_ids (e : DragEvent) (i : Z) (s : AppState) :
  ids (windows (handleDragStart e i s)) = ids (windows s).
Proof. simpl. apply unsnapWindow_ids. Qed.

Lemma handleDrag_ids (vp : Viewport) (e : DragEvent) (i : Z) (s : AppState) :
  ids (windows (handleDrag vp e i s)) = ids (windows s).
Proof.
  unfold handleDrag.
  destruct (negb (strict_eq i (draggedWindowId s)) || is_none (dragStartPos s)
            || Qeq_bool (clientX e) 0); [reflexivity|].
  destruct (dragStartPos s); [|reflexivity].
  simpl. apply translate_ids.
Qed.

Lemma handleDrop_ids (vp : Viewport) (s : AppState) :
  ids (windows (handleDrop vp s)) = ids (windows s).
Proof.
  unfold handleDrop.
  destruct (draggedWindowId s) as [d|]; [|reflexivity].
  destruct (negb (show (snapIndicator s)) || negb (truthy d)); [reflexivity|].
  simpl. apply dropUpdate_ids.
Qed.

(** C10. List-shape invariant: [unsnapWindow], [handleDragStart],
    [handleDrag] and [handleDrop] keep the list of window ids as it is, with
    the same elements in the same order, so none of them adds, removes or
    reorders a window. *)
Theorem list_shape_invariant :
  (forall i curr, map id (unsnapWindow i curr) = map id curr) /\
  (forall e i s, map id (windows (handleDragStart e i s)) = map id (windows s)) /\
  (forall vp e i s,
      map id (windows (handleDrag vp e i s)) = map id (windows s)) /\
  (forall vp s, map id (windows (handleDrop vp s)) = map id (windows s)).
Proof.
  repeat split; intros.
  - apply unsnapWindow_ids.
  - apply handleDragStart_ids.
  - apply handleDrag_ids.
  - apply handleDrop_ids.
Qed.

(** ** [unsnapWindow] on a window that is not snapped or has no parent *)

Lemma unsnapWindow_guard (i : Z) (curr : list WindowData) (P : WindowData) :
  find_id (Some i) curr = Some P ->
  isSnapped P = false \/ truthy_opt (parent P) = false ->
  unsnapWindow i curr = curr.
Proof.
  intros Hfind Hguard. unfold unsnapWindow. rewrite Hfind.
  destruct Hguard as [H|H]; rewrite H; simpl.
  - reflexivity.
  - rewrite orb_true_r. reflexivity.
Qed.

(** C3, as the code has it.  When the window [P] that the lookup by id finds
    is not snapped, or has no parent ([parent] is [null], or the falsy 0),
    [unsnapWindow] returns the list it was given: every window, [P] included,
    keeps all its fields, and [handleDragStart], which calls it, leaves the
    window list unchanged too.  A window snapped to a screen half keeps
    [isSnapped = true]. *)
Theorem unsnap_without_parent_is_identity
    (e : DragEvent) (s : AppState) (P : WindowData) :
  find_id (Some (id P)) (windows s) = Some P ->
  isSnapped P = false \/ truthy_opt (parent P) = false ->
  unsnapWindow (id P) (windows s) = windows s /\
  windows (handleDragStart e (id P) s) = windows s.
Proof.
  intros Hfind Hguard.
  pose proof (unsnapWindow_guard _ _ _ Hfind Hguard) as Hu.
  split; [exact Hu|].
  simpl. exact Hu.
Qed.

Lemma unsnap_without_parent_is_identity_witness :
  unsnapWindow 1 (windows snapped_to_left_half)
    = windows snapped_to_left_half /\
  windows (handleDragStart {| clientX := 10; clientY := 10 |} 1
             snapped_to_left_half)
    = windows snapped_to_left_half.
Proof.
  apply (unsnap_without_parent_is_identity
           {| clientX := 10; clientY := 10 |} snapped_to_left_half
           left_half_window).
  - reflexivity.
  - right. reflexivity.
Defined.

(** C3 as the spec states it fails for a window snapped to a screen half
    ([isSnapped = true], [parent = null]): after [unsnapWindow], and after
    [handleDragStart], the window still has [isSnapped = true]. *)
Lemma unsnap_keeps_screen_snap_flag :
  windows snapped_to_left_half = [left_half_window] /\
  isSnapped left_half_window = true /\ parent left_half_window = None /\
  (exists P',
      find_id (Some 1%Z) (unsnapWindow 1 (windows snapped_to_left_half))
        = Some P' /\
      isSnapped P' = true /\ isSnapped P' <> false) /\
  (exists P',
      find_id (Some 1%Z)
        (windows (handleDragStart {| clientX := 10; clientY := 10 |} 1
                    snapped_to_left_half))
        = Some P' /\
      isSnapped P' = true /\ isSnapped P' <> false).
Proof.
  split; [reflexivity|]. split; [reflexivity|]. split; [reflexivity|].
  split; eexists; (split; [reflexivity|]); split;
    [reflexivity | discriminate | reflexivity | discriminate].
Qed.

(** ** [handleDrop] without a decision or without a dragged window *)

(** C4, as the code has it.  When the indicator is not shown, or no window
    is being dragged ([draggedWindowId.current] is [null], or the falsy 0),
    [handleDrop] returns before it touches anything: the window list, the
    dragged id, the last pointer position and the indicator all stay as they
    were. *)
Theorem drop_without_decision_is_identity (vp : Viewport) (s : AppState) :
  show (snapIndicator s) = false \/ truthy_opt (draggedWindowId s) = false ->
  handleDrop vp s = s.
Proof.
  intros H. unfold handleDrop.
  destruct (draggedWindowId s) as [d|]; [|reflexivity].
  destruct H as [H|H].
  - rewrite H. reflexivity.
  - simpl in H. rewrite H. rewrite orb_true_r. reflexivity.
Qed.

Lemma drop_without_decision_is_identity_witness :
  handleDrop vp1200x800 two_windows_dragging = two_windows_dragging.
Proof.
  apply (drop_without_decision_is_identity vp1200x800 two_windows_dragging).
  left. reflexivity.
Defined.

(** C4 as the spec states it fails: a window was picked up and no decision is
    active; after [handleDrop] the dragged id and the pointer position are
    still recorded. *)
Lemma drop_without_decision_keeps_drag_state :
  show (snapIndicator two_windows_dragging) = false /\
  windows (handleDrop vp1200x800 two_windows_dragging)
    = windows two_windows_dragging /\
  draggedWindowId (handleDrop vp1200x800 two_windows_dragging) = Some 2%Z /\
  dragStartPos (handleDrop vp1200x800 two_windows_dragging)
    = Some {| x := 510; y := 310 |} /\
  ~ (draggedWindowId (handleDrop vp1200x800 two_windows_dragging) = None /\
     dragStartPos (handleDrop vp1200x800 two_windows_dragging) = None).
Proof.
  repeat split; try reflexivity.
  intros [H _]. discriminate H.
Qed.

(** ** [handleDrag] on an event with [clientX = 0] *)

(** C8, as the code has it.  An event whose [clientX] is 0 is ignored:
    [handleDrag] returns the state unchanged, so no window moves, the recorded
    pointer position stays and no indicator is published.  [clientY] is not
    tested. *)
Theorem drag_with_zero_clientX_is_ignored
    (vp : Viewport) (e : DragEvent) (i : Z) (s : AppState) :
  clientX e == 0 -> handleDrag vp e i s = s.
Proof.
  intros H. unfold handleDrag.
  apply Qeq_bool_iff in H. rewrite H. rewrite orb_true_r. reflexivity.
Qed.

Lemma drag_with_zero_clientX_is_ignored_witness :
  handleDrag vp1200x800 {| clientX := 0; clientY := 100 |} 2
    two_windows_dragging = two_windows_dragging.
Proof.
  apply (drag_with_zero_clientX_is_ignored vp1200x800
           {| clientX := 0; clientY := 100 |} 2 two_windows_dragging).
  reflexivity.
Defined.

(** C8 as the spec states it fails for an event whose [clientY] is 0 and
    whose [clientX] is not: the dragged window moves (from [top = 300] to
    [top = -10]), the pointer position is updated and an indicator is
    published. *)
Lemma drag_with_zero_clientY_is_applied :
  let e := {| clientX := 510; clientY := 0 |} in
  let s' := handleDrag vp1200x800 e 2 two_windows_dragging in
  clientY e == 0 /\
  (exists w w',
      find_id (Some 2%Z) (windows two_windows_dragging) = Some w /\
      find_id (Some 2%Z) (windows s') = Some w' /\
      top w == 300 /\ top w' == -10 /\ ~ top w' == top w) /\
  dragStartPos s' = Some {| x := 510; y := 0 |} /\
  dragStartPos s' <> dragStartPos two_windows_dragging /\
  snapIndicator s' = screen_top /\
  snapIndicator s' <> snapIndicator two_windows_dragging.
Proof.
  cbv zeta. split; [reflexivity|]. split.
  - eexists. eexists. split; [reflexivity|]. split; [reflexivity|].
    split; [reflexivity|]. split; [reflexivity|].
    intros H. vm_compute in H. discriminate H.
  - split; [reflexivity|]. split; [discriminate|].
    split; [reflexivity|]. discriminate.
Qed.

(** ** The snap resolver *)

(** The loop stops at the first window that is not the dragged one and
    contains the pointer. *)
Lemma scanWindows_first_containing (ind : SnapIndicatorState) (cx cy : Q)
    (i : Z) (ws : list WindowData) :
  scanWindows ind cx cy i ws =
  match first_containing cx cy i ws with
  | Some w => panelIndicator ind cx cy w
  | None => ind
  end.
Proof.
  unfold first_containing.
  induction ws as [|w rest IH]; simpl; [reflexivity|].
  destruct (id w =? i)%Z; simpl; [exact IH|].
  destruct (inside cx cy w); simpl; [reflexivity | exact IH].
Qed.

Lemma first_containing_Some (cx cy : Q) (i : Z) (ws : list WindowData)
    (w : WindowData) :
  first_containing cx cy i ws = Some w ->
  In w ws /\ id w <> i /\ inside cx cy w = true.
Proof.
  unfold first_containing. intros H. apply find_some in H.
  destruct H as [Hin H]. apply andb_true_iff in H. destruct H as [Hid Hins].
  apply negb_true_iff, Z.eqb_neq in Hid. auto.
Qed.

Lemma first_containing_None (cx cy : Q) (i : Z) (ws : list WindowData) :
  (forall w, In w ws -> id w <> i -> inside cx cy w = false) ->
  first_containing cx cy i ws = None.
Proof.
  intros H. unfold first_containing.
  destruct (find _ ws) as [w|] eqn:Hf; [|reflexivity].
  apply find_some in Hf. destruct Hf as [Hin Hw].
  apply andb_true_iff in Hw. destruct Hw as [Hid Hins].
  apply negb_true_iff, Z.eqb_neq in Hid.
  rewrite (H w Hin Hid) in Hins. discriminate.
Qed.

(** ** Splitting a target window *)

Lemma find_id_map (f : WindowData -> WindowData) (o : option Z)
    (curr : list WindowData) :
  (forall w, id (f w) = id w) ->
  find_id o (map f curr) = option_map f (find_id o curr).
Proof.
  intros Hf. unfold find_id.
  induction curr as [|w rest IH]; simpl; [reflexivity|].
  rewrite Hf. destruct (strict_eq (id w) o); [reflexivity | exact IH].
Qed.

Lemma split_applied (sd : SnapSide) (tg d : Z) (T D : WindowData) :
  id T = tg -> id D = d ->
  forall w, id (match lookup (id w) (splitUpdates sd tg d T D) with
                | Some u => u
                | None => w
                end) = id w.
Proof.
  intros HT HD w.
  destruct (lookup (id w) (splitUpdates sd tg d T D)) as [u|] eqn:Hu;
    [|reflexivity].
  eapply lookup_splitUpdates_id; [exact HT | exact HD | exact Hu].
Qed.

Lemma halves_tile_h (t a b : WindowData) :
  left a == left t -> width a == width t / 2 ->
  left b == left t + width t / 2 -> width b == width t / 2 ->
  top a == top t -> top b == top t ->
  height a == height t -> height b == height t ->
  tiles t a b.
Proof.
  intros. unfold tiles, covers. split; intros px py.
  - split.
    + intros [[? ?] [? ?]].
      destruct (Qlt_le_dec px (left t + width t / 2)); [left|right]; halves.
    + intros [[[? ?] [? ?]]|[[? ?] [? ?]]]; halves.
  - intros [[[? ?] [? ?]] [[? ?] [? ?]]]. halves.
Qed.

Lemma halves_tile_v (t a b : WindowData) :
  top a == top t -> height a == height t / 2 ->
  top b == top t + height t / 2 -> height b == height t / 2 ->
  left a == left t -> left b == left t ->
  width a == width t -> width b == width t ->
  tiles t a b.
Proof.
  intros. unfold tiles, covers. split; intros px py.
  - split.
    + intros [[? ?] [? ?]].
      destruct (Qlt_le_dec py (top t + height t / 2)); [left|right]; halves.
    + intros [[[? ?] [? ?]]|[[? ?] [? ?]]]; halves.
  - intros [[[? ?] [? ?]] [[? ?] [? ?]]]. halves.
Qed.

(** ** Snapping to a screen half *)

(** C7. Full-screen snap.  On a 1200x800 viewport, with the pointer at
    [(5, 400)] and no window other than the dragged one containing it, the
    decision is shown, its side is left and it has no target.  When
    [handleDrag] publishes it for the dragged window and [handleDrop] commits
    it, the dragged window has the geometry [{top:0, left:0, width:600,
    height:800}], [isSnapped = true] and [parent = null]. *)
Theorem full_screen_snap :
  (forall i ws,
      (forall w, In w ws -> id w <> i -> inside 5 400 w = false) ->
      show (resolveIndicator vp1200x800 5 400 i ws) = true /\
      side (resolveIndicator vp1200x800 5 400 i ws) = Some SLeft /\
      target (resolveIndicator vp1200x800 5 400 i ws) = None) /\
  (forall s i p D,
      draggedWindowId s = Some i -> i <> 0%Z ->
      dragStartPos s = Some p ->
      find_id (Some i) (windows s) = Some D ->
      (forall w, In w (windows s) -> id w <> i -> inside 5 400 w = false) ->
      exists D',
        find_id (Some i)
          (windows (handleDrop vp1200x800
                      (handleDrag vp1200x800
                         {| clientX := 5; clientY := 400 |} i s)))
          = Some D' /\
        top D' == 0 /\ left D' == 0 /\ width D' == 600 /\ height D' == 800 /\
        isSnapped D' = true /\ parent D' = None).
Proof.
  assert (Hres : forall i ws,
             (forall w, In w ws -> id w <> i -> inside 5 400 w = false) ->
             resolveIndicator vp1200x800 5 400 i ws = screen_left).
  { intros i ws Hout. unfold resolveIndicator.
    rewrite scanWindows_first_containing, (first_containing_None _ _ _ _ Hout).
    reflexivity. }
  split.
  - intros i ws Hout. rewrite (Hres i ws Hout). repeat split.
  - intros s i p D Hd Hi Hp HD Hout.
    apply truthy_true in Hi.
    unfold handleDrag. rewrite Hd, Hp. simpl. rewrite Z.eqb_refl. simpl.
    rewrite (Hres i (windows s) Hout).
    unfold handleDrop. simpl. rewrite Hi. simpl.
    unfold dropUpdate.
    assert (Htr : forall w, id (translate i (5 - x p) (400 - y p) w) = id w).
    { intros w. unfold translate. destruct (id w =? i)%Z; reflexivity. }
    rewrite (find_id_map _ _ _ Htr), HD. simpl.
    rewrite find_id_map
      by (intros w; destruct (id w =? i)%Z; reflexivity).
    rewrite (find_id_map _ _ _ Htr), HD. simpl.
    destruct (find_id_Some _ _ _ HD) as [_ HidD].
    rewrite Htr, HidD, Z.eqb_refl.
    eexists. split; [reflexivity|]. simpl.
    repeat split; reflexivity.
Qed.

Lemma full_screen_snap_witness :
  (show (resolveIndicator vp1200x800 5 400 2
           (windows two_windows_dragging)) = true /\
   side (resolveIndicator vp1200x800 5 400 2
           (windows two_windows_dragging)) = Some SLeft /\
   target (resolveIndicator vp1200x800 5 400 2
             (windows two_windows_dragging)) = None) /\
  (exists D',
      find_id (Some 2%Z)
        (windows (handleDrop vp1200x800
                    (handleDrag vp1200x800
                       {| clientX := 5; clientY := 400 |} 2
                       two_windows_dragging)))
        = Some D' /\
      top D' == 0 /\ left D' == 0 /\ width D' == 600 /\ height D' == 800 /\
      isSnapped D' = true /\ parent D' = None).
Proof.
  assert (Hout : forall w, In w (windows two_windows_dragging) ->
                           id w <> 2%Z -> inside 5 400 w = false).
  { intros w [Hw|[Hw|[]]] Hid; subst w; [reflexivity|].
    exfalso. apply Hid. reflexivity. }
  split.
  - apply (proj1 full_screen_snap 2%Z (windows two_windows_dragging) Hout).
  - eapply (proj2 full_screen_snap two_windows_dragging 2%Z);
      [reflexivity | discriminate | reflexivity | reflexivity | exact Hout].
Defined.

(** ** Reachable states *)

Lemma panelIndicator_target (ind : SnapIndicatorState) (cx cy : Q)
    (w : WindowData) (t : Z) :
  target (panelIndicator ind cx cy w) = Some t ->
  t = id w \/ target ind = Some t.
Proof.
  unfold panelIndicator.
  destruct (Qltb cx (left w + SNAP_THRESHOLD));
    [simpl; intros H; left; congruence|].
  destruct (Qltb (left w + width w - SNAP_THRESHOLD) cx);
    [simpl; intros H; left; congruence|].
  destruct (Qltb cy (top w + SNAP_THRESHOLD));
    [simpl; intros H; left; congruence|].
  destruct (Qltb (top w + height w - SNAP_THRESHOLD) cy);
    [simpl; intros H; left; congruence|].
  auto.
Qed.

Lemma screenIndicator_target (vp : Viewport) (ind : SnapIndicatorState)
    (cx cy : Q) (t : Z) :
  target (screenIndicator vp ind cx cy) = Some t -> target ind = Some t.
Proof.
  unfold screenIndicator.
  destruct (negb (show ind)); [|auto].
  destruct (Qltb cx SNAP_THRESHOLD); [discriminate|].
  destruct (Qltb (innerWidth vp - SNAP_THRESHOLD) cx); [discriminate|].
  destruct (Qltb cy SNAP_THRESHOLD); [discriminate|].
  destruct (Qltb (innerHeight vp - SNAP_THRESHOLD) cy); [discriminate|].
  auto.
Qed.

(** A target the resolver names is the id of a window of the list, other
    than the dragged one. *)
Lemma resolveIndicator_target (vp : Viewport) (cx cy : Q) (i : Z)
    (ws : list WindowData) (t : Z) :
  target (resolveIndicator vp cx cy i ws) = Some t ->
  In t (ids ws) /\ t <> i.
Proof.
  unfold resolveIndicator. intros H. apply screenIndicator_target in H.
  rewrite scanWindows_first_containing in H.
  destruct (first_containing cx cy i ws) as [w|] eqn:Hw; [|discriminate].
  apply first_containing_Some in Hw. destruct Hw as [Hin [Hid _]].
  apply panelIndicator_target in H. destruct H as [H|H]; [|discriminate].
  subst t. split; [|exact Hid]. unfold ids. apply in_map. exact Hin.
Qed.

Lemma filter_ids (f : WindowData -> bool) (curr : list WindowData) (i : Z) :
  In i (ids (filter f curr)) -> In i (ids curr).
Proof.
  unfold ids. rewrite !in_map_iff. intros [w [Hid Hw]].
  apply filter_In in Hw. exists w. tauto.
Qed.

Lemma reachable_invariant (s : AppState) :
  reachable s -> session_invariant s.
Proof.
  induction 1 as [|ev s Hreach [Iids [Idrag [Ishow Itgt]]] Hwf].
  - repeat split; simpl; try discriminate. intros i [].
  - unfold well_formed in Hwf.
    assert (Hinv : session_invariant s) by (repeat split; assumption).
    destruct ev as [vp now c r1 r2|i|e i|vp e i|vp]; simpl in *.
    + (* createWindow *)
      repeat split; simpl; auto.
      intros i Hi. unfold ids in Hi. rewrite map_app in Hi.
      apply in_app_or in Hi. destruct Hi as [Hi|[Hi|[]]]; [auto|].
      simpl in Hi. subst i. auto.
    + (* closeWindow *)
      repeat split; simpl; auto.
      intros k Hk. apply filter_ids in Hk.
      rewrite unsnapWindow_ids in Hk. auto.
    + (* handleDragStart *)
      repeat split; simpl; auto.
      * intros k Hk. rewrite unsnapWindow_ids in Hk. auto.
      * discriminate.
    + (* handleDrag *)
      unfold handleDrag.
      destruct (negb (strict_eq i (draggedWindowId s))
                || is_none (dragStartPos s)
                || Qeq_bool (clientX e) 0) eqn:Hguard;
        [exact Hinv|].
      destruct (dragStartPos s) as [p|]; [|exact Hinv].
      repeat split; simpl; auto.
      * intros k Hk. rewrite translate_ids in Hk. auto.
      * intros _ Hnone. rewrite Hnone in Hguard. discriminate Hguard.
      * intros t Ht. apply resolveIndicator_target in Ht. apply Iids, Ht.
    + (* handleDrop *)
      unfold handleDrop.
      destruct (draggedWindowId s) as [d|]; [|exact Hinv].
      destruct (negb (show (snapIndicator s)) || negb (truthy d));
        [exact Hinv|].
      repeat split; cbn [windows snapIndicator draggedWindowId];
        try (simpl; discriminate).
      intros k Hk. rewrite dropUpdate_ids in Hk. auto.
Qed.

(** ** [handleDrop] on a decision whose target is gone *)

(** C9. Dangling target.  In every reachable state where a decision is
    shown and its target is the id of no window of the list, [handleDrop]
    leaves the window list as it is, and clears the dragged id, the pointer
    position and the indicator. *)
Theorem drop_on_dangling_target (vp : Viewport) (s : AppState) (tg : Z) :
  reachable s ->
  show (snapIndicator s) = true ->
  target (snapIndicator s) = Some tg ->
  find_id (Some tg) (windows s) = None ->
  windows (handleDrop vp s) = windows s /\
  draggedWindowId (handleDrop vp s) = None /\
  dragStartPos (handleDrop vp s) = None /\
  snapIndicator (handleDrop vp s) = EMPTY_INDICATOR.
Proof.
  intros Hreach Hshow Htg Hgone.
  destruct (reachable_invariant s Hreach) as [_ [Idrag [Ishow Itgt]]].
  unfold handleDrop.
  destruct (draggedWindowId s) as [d|]; [|exfalso; apply (Ishow Hshow); reflexivity].
  assert (Hd : truthy d = true)
    by (apply truthy_true; specialize (Idrag d eq_refl); lia).
  assert (Ht : truthy tg = true)
    by (apply truthy_true; specialize (Itgt tg Htg); lia).
  rewrite Hshow, Hd. simpl. repeat split.
  unfold dropUpdate. rewrite Htg, Ht, Hgone.
  destruct (find_id (Some d) (windows s)); [|reflexivity].
  destruct (side (snapIndicator s)); reflexivity.
Qed.

Lemma drop_on_dangling_target_witness :
  windows (handleDrop vp1200x800 target_closed) = windows target_closed /\
  draggedWindowId (handleDrop vp1200x800 target_closed) = None /\
  dragStartPos (handleDrop vp1200x800 target_closed) = None /\
  snapIndicator (handleDrop vp1200x800 target_closed) = EMPTY_INDICATOR.
Proof.
  apply (drop_on_dangling_target vp1200x800 target_closed 1%Z);
    try reflexivity.
  unfold target_closed, over_left_edge, two_windows_dragging.
  repeat apply reach_step;
    try (intros i Hi; simpl in Hi; injection Hi as <-; reflexivity).
  apply reach_init.
Defined.

(** ** Unsnapping after a split *)

(** What [unsnapWindow] makes of the target after a split: the extent along
    the split axis is back to what it was, the extent along the other axis
    is doubled, and the position stays where the split put it. *)
Lemma unsnap_after_split
    (vp : Viewport) (s : AppState) (d tg : Z) (sd : SnapSide)
    (D T : WindowData) :
  draggedWindowId s = Some d -> d <> 0%Z ->
  show (snapIndicator s) = true ->
  side (snapIndicator s) = Some sd ->
  target (snapIndicator s) = Some tg -> tg <> 0%Z ->
  find_id (Some d) (windows s) = Some D ->
  find_id (Some tg) (windows s) = Some T ->
  d <> tg ->
  exists T2,
    find_id (Some tg) (unsnapWindow d (windows (handleDrop vp s))) = Some T2 /\
    match sd with
    | SLeft =>
        top T2 == top T /\ left T2 == left T + width T / 2 /\
        width T2 == width T /\ height T2 == height T + height T
    | SRight =>
        top T2 == top T /\ left T2 == left T /\
        width T2 == width T /\ height T2 == height T + height T
    | STop =>
        top T2 == top T + height T / 2 /\ left T2 == left T /\
        width T2 == width T + width T /\ height T2 == height T
    | SBottom =>
        top T2 == top T /\ left T2 == left T /\
        width T2 == width T + width T /\ height T2 == height T
    end.
Proof.
  intros Hd Hd0 Hshow Hside Htg Htg0 HD HT Hne.
  apply truthy_true in Hd0. apply truthy_true in Htg0.
  destruct (find_id_Some _ _ _ HD) as [_ HidD].
  destruct (find_id_Some _ _ _ HT) as [_ HidT].
  assert (Hdd : (d =? d)%Z = true) by apply Z.eqb_refl.
  assert (Htt : (tg =? tg)%Z = true) by apply Z.eqb_refl.
  assert (Htd : (tg =? d)%Z = false) by (apply Z.eqb_neq; congruence).
  unfold handleDrop. rewrite Hd, Hshow, Hd0, Hside, Htg.
  cbn [negb orb windows].
  unfold dropUpdate. rewrite HD, Htg0, HT.
  set (f := fun w => match lookup (id w) (splitUpdates sd tg d T D) with
                     | Some u => u
                     | None => w
                     end).
  assert (Hf : forall w, id (f w) = id w)
    by (apply split_applied; assumption).
  assert (HfD : find_id (Some d) (map f (windows s)) = Some (f D))
    by (rewrite (find_id_map f _ _ Hf), HD; reflexivity).
  assert (HfT : find_id (Some tg) (map f (windows s)) = Some (f T))
    by (rewrite (find_id_map f _ _ Hf), HT; reflexivity).
  assert (HDv : isSnapped (f D) = true /\ parent (f D) = Some tg /\
                match sd with
                | SLeft | SRight =>
                    width (f D) = width T / 2 /\ height (f D) = height T
                | STop | SBottom =>
                    width (f D) = width T /\ height (f D) = height T / 2
                end).
  { unfold f. rewrite HidD. destruct sd; simpl; rewrite Hdd; simpl; auto. }
  assert (HTv : match sd with
                | SLeft => f T = with_geometry T (top T) (left T + width T / 2) (width T / 2) (height T)
                | SRight => f T = with_geometry T (top T) (left T) (width T / 2) (height T)
                | STop => f T = with_geometry T (top T + height T / 2) (left T) (width T) (height T / 2)
                | SBottom => f T = with_geometry T (top T) (left T) (width T) (height T / 2)
                end).
  { unfold f. rewrite HidT. destruct sd; simpl; rewrite Htd, Htt; reflexivity. }
  destruct HDv as [HDs [HDp HDg]].
  unfold unsnapWindow. rewrite HfD, HDs, HDp. cbn [truthy_opt]. rewrite Htg0.
  cbn [negb orb]. rewrite HfT.
  rewrite find_id_map.
  2:{ intros w. destruct (id w =? id (f T))%Z eqn:E.
      - apply Z.eqb_eq in E. simpl. symmetry. exact E.
      - destruct (id w =? d)%Z; reflexivity. }
  rewrite HfT. cbn [option_map]. rewrite Z.eqb_refl.
  eexists. split; [reflexivity|].
  destruct sd; destruct HDg as [HDw HDh]; rewrite HTv, HDw, HDh; simpl;
    repeat split; try reflexivity; halves.
Qed.

(** C1. Reversibility, evaluated on a run.  Window 2 is dropped on the left
    edge of window 1, whose geometry was [{top:0, left:0, width:300,
    height:200}]; the split leaves window 1 with [{top:0, left:150,
    width:150, height:200}].  Unsnapping window 2 right after gives window 1
    the geometry [{top:0, left:150, width:300, height:400}], which is not the
    one it had before the split. *)
Theorem unsnap_does_not_restore_target :
  exists T0 T1 T2,
    find_id (Some 1%Z) (windows over_left_edge) = Some T0 /\
    find_id (Some 1%Z) (windows (handleDrop vp1200x800 over_left_edge))
      = Some T1 /\
    find_id (Some 1%Z)
      (unsnapWindow 2 (windows (handleDrop vp1200x800 over_left_edge)))
      = Some T2 /\
    (top T0 == 0 /\ left T0 == 0 /\ width T0 == 300 /\ height T0 == 200) /\
    (top T1 == 0 /\ left T1 == 150 /\ width T1 == 150 /\ height T1 == 200) /\
    (top T2 == 0 /\ left T2 == 150 /\ width T2 == 300 /\ height T2 == 400) /\
    ~ same_geometry T2 T0.
Proof.
  eexists. eexists. eexists.
  split; [reflexivity|]. split; [reflexivity|]. split; [reflexivity|].
  split; [repeat split; reflexivity|].
  split; [repeat split; reflexivity|].
  split; [repeat split; reflexivity|].
  intros [_ [H _]]. vm_compute in H. discriminate H.
Qed.

(** * Further properties of the layout store *)

(** ** [createWindow] and [closeWindow] *)

Lemma find_id_absent (i : Z) (curr : list WindowData) :
  ~ In i (ids curr) -> find_id (Some i) curr = None.
Proof.
  intros Hout. unfold find_id.
  destruct (find _ curr) as [w|] eqn:Hf; [|reflexivity].
  apply find_some in Hf. destruct Hf as [Hin Heq]. simpl in Heq.
  apply Z.eqb_eq in Heq. exfalso. apply Hout. unfold ids.
  rewrite <- Heq. apply in_map. exact Hin.
Qed.

Lemma unsnapWindow_absent (i : Z) (curr : list WindowData) :
  ~ In i (ids curr) -> unsnapWindow i curr = curr.
Proof.
  intros Hout. unfold unsnapWindow.
  rewrite (find_id_absent _ _ Hout). reflexivity.
Qed.

Lemma filter_absent (i : Z) (curr : list WindowData) :
  ~ In i (ids curr) -> filter (fun w => negb (id w =? i)%Z) curr = curr.
Proof.
  induction curr as [|w rest IH]; simpl; intros Hout; [reflexivity|].
  destruct (id w =? i)%Z eqn:E.
  - apply Z.eqb_eq in E. exfalso. apply Hout. left. exact E.
  - simpl. rewrite IH; [reflexivity|]. intros H. apply Hout. right. exact H.
Qed.

Lemma filter_ids_eq (i : Z) (curr : list WindowData) :
  ids (filter (fun w => negb (id w =? i)%Z) curr)
  = filter (fun k => negb (k =? i)%Z) (ids curr).
Proof.
  induction curr as [|w rest IH]; simpl; [reflexivity|].
  destruct (id w =? i)%Z; simpl; rewrite IH; reflexivity.
Qed.

(** X1. [createWindow] puts one window at the end of the list and touches
    nothing else: the windows already there, the indicator and the drag refs
    stay as they are.  The new window has the id [Date.now()] gave, is 300 by
    200, not snapped and without a parent.  With both random numbers in
    [0, 1) and a viewport of at least 200 by 200, its top-left corner is on
    screen and its bottom edge too, while its right edge can pass the right
    screen edge by up to 100 pixels. *)
Theorem createWindow_appends
    (vp : Viewport) (now : Z) (c : string) (r1 r2 : Q) (s : AppState) :
  0 <= r1 -> r1 < 1 -> 0 <= r2 -> r2 < 1 ->
  200 <= innerWidth vp -> 200 <= innerHeight vp ->
  exists w,
    windows (createWindow vp now c r1 r2 s) = windows s ++ [w] /\
    snapIndicator (createWindow vp now c r1 r2 s) = snapIndicator s /\
    draggedWindowId (createWindow vp now c r1 r2 s) = draggedWindowId s /\
    dragStartPos (createWindow vp now c r1 r2 s) = dragStartPos s /\
    id w = now /\ color w = c /\ isSnapped w = false /\ parent w = None /\
    width w == 300 /\ height w == 200 /\
    0 <= top w /\ top w + height w <= innerHeight vp /\
    0 <= left w /\ left w + width w <= innerWidth vp + 100.
Proof.
  intros Hr1 Hr1' Hr2 Hr2' HW HH.
  eexists. split; [reflexivity|]. simpl.
  repeat split; try reflexivity; nra.
Qed.

Lemma createWindow_appends_witness :
  exists w,
    windows (createWindow vp1200x800 7 black (1 # 2) (19 # 20)
               two_windows_dragging)
      = windows two_windows_dragging ++ [w] /\
    snapIndicator (createWindow vp1200x800 7 black (1 # 2) (19 # 20)
                     two_windows_dragging)
      = snapIndicator two_windows_dragging /\
    draggedWindowId (createWindow vp1200x800 7 black (1 # 2) (19 # 20)
                       two_windows_dragging)
      = draggedWindowId two_windows_dragging /\
    dragStartPos (createWindow vp1200x800 7 black (1 # 2) (19 # 20)
                    two_windows_dragging)
      = dragStartPos two_windows_dragging /\
    id w = 7%Z /\ color w = black /\ isSnapped w = false /\ parent w = None /\
    width w == 300 /\ height w == 200 /\
    0 <= top w /\ top w + height w <= 800 /\
    0 <= left w /\ left w + width w <= 1200 + 100.
Proof.
  apply (createWindow_appends vp1200x800 7 black (1 # 2) (19 # 20)
           two_windows_dragging); simpl; lra.
Defined.

(** X2. Closing a window whose id no window of the list has changes nothing:
    the state after [closeWindow] is the state before. *)
Theorem closeWindow_absent (i : Z) (s : AppState) :
  ~ In i (ids (windows s)) -> closeWindow i s = s.
Proof.
  intros Hout. unfold closeWindow, set_windows. simpl.
  rewrite (unsnapWindow_absent _ _ Hout), (filter_absent _ _ Hout).
  destruct s; reflexivity.
Qed.

Lemma closeWindow_absent_witness :
  closeWindow 9 two_windows_dragging = two_windows_dragging.
Proof.
  apply (closeWindow_absent 9 two_windows_dragging).
  simpl. intros [H|[H|[]]]; discriminate H.
Defined.

(** X3. [closeWindow] removes exactly the windows with the closed id: the
    ids left are the ids before without the closed one, in the same order, so
    the closed id is gone and no other window is dropped. *)
Theorem closeWindow_ids (i : Z) (s : AppState) :
  ids (windows (closeWindow i s))
    = filter (fun k => negb (k =? i)%Z) (ids (windows s)) /\
  ~ In i (ids (windows (closeWindow i s))).
Proof.
  assert (H : ids (windows (closeWindow i s))
              = filter (fun k => negb (k =? i)%Z) (ids (windows s))).
  { unfold closeWindow. simpl. rewrite filter_ids_eq, unsnapWindow_ids.
    reflexivity. }
  split; [exact H|].
  rewrite H. intros Hin. apply filter_In in Hin. destruct Hin as [_ Hne].
  rewrite Z.eqb_refl in Hne. discriminate Hne.
Qed.

Lemma find_id_last (i : Z) (curr : list WindowData) (w : WindowData) :
  find_id (Some i) curr = None -> id w = i ->
  find_id (Some i) (curr ++ [w]) = Some w.
Proof.
  unfold find_id. intros Hnone Hid.
  induction curr as [|v rest IH]; simpl in *.
  - rewrite Hid, Z.eqb_refl. reflexivity.
  - destruct (id v =? i)%Z; [discriminate | apply IH; exact Hnone].
Qed.

(** X4. Creating a window under an id no window has and closing it right
    away gives back the state there was before. *)
Theorem create_then_close
    (vp : Viewport) (now : Z) (c : string) (r1 r2 : Q) (s : AppState) :
  ~ In now (ids (windows s)) ->
  closeWindow now (createWindow vp now c r1 r2 s) = s.
Proof.
  intros Hout. unfold closeWindow, createWindow, set_windows. simpl.
  set (w := {| id := now; color := c;
               top := r1 * (innerHeight vp - 200);
               left := r2 * (innerWidth vp - 200);
               width := 300; height := 200;
               isSnapped := false; parent := None |}).
  assert (Hfind : find_id (Some now) (windows s ++ [w]) = Some w).
  { apply find_id_last; [apply find_id_absent; exact Hout | reflexivity]. }
  assert (Hun : unsnapWindow now (windows s ++ [w]) = windows s ++ [w]).
  { unfold unsnapWindow. rewrite Hfind. reflexivity. }
  rewrite Hun, filter_app, (filter_absent _ _ Hout). simpl.
  rewrite Z.eqb_refl. simpl. rewrite app_nil_r.
  destruct s; reflexivity.
Qed.

Lemma create_then_close_witness :
  closeWindow 7 (createWindow vp1200x800 7 black (1 # 2) (1 # 2)
                   over_left_edge)
  = over_left_edge.
Proof.
  apply (create_then_close vp1200x800 7 black (1 # 2) (1 # 2) over_left_edge).
  simpl. intros [H|[H|[]]]; discriminate H.
Defined.

(** ** [unsnapWindow] *)

Lemma find_id_opt_Some (o : option Z) (curr : list WindowData)
    (w : WindowData) :
  find_id o curr = Some w -> In w curr /\ o = Some (id w).
Proof.
  unfold find_id. intros H. apply find_some in H.
  destruct H as [Hin Heq]. destruct o as [k|]; simpl in Heq; [|discriminate].
  apply Z.eqb_eq in Heq. subst. auto.
Qed.

Lemma NoDup_ids_inj (curr : list WindowData) (a b : WindowData) :
  NoDup (ids curr) -> In a curr -> In b curr -> id a = id b -> a = b.
Proof.
  unfold ids. induction curr as [|v rest IH]; simpl; intros Hnd Ha Hb Hid;
    [contradiction|].
  inversion Hnd as [|k l Hnotin Hnd']; subst.
  destruct Ha as [Ha|Ha], Hb as [Hb|Hb]; subst.
  - reflexivity.
  - exfalso. apply Hnotin. rewrite Hid. apply in_map. exact Hb.
  - exfalso. apply Hnotin. rewrite <- Hid. apply in_map. exact Ha.
  - apply IH; assumption.
Qed.

(** The three outcomes of [unsnapWindow]: the list is returned as it is; or
    the parent is not in the list and the windows with the id are cleared;
    or the sibling is found and replaced by [updatedSibling]. *)
Lemma unsnapWindow_cases (i : Z) (curr : list WindowData) :
  unsnapWindow i curr = curr \/
  (exists win,
      find_id (Some i) curr = Some win /\ isSnapped win = true /\
      truthy_opt (parent win) = true /\
      find_id (parent win) curr = None /\
      unsnapWindow i curr
      = map (fun w => if (id w =? i)%Z then cleared w else w) curr) \/
  (exists win sibling,
      find_id (Some i) curr = Some win /\ isSnapped win = true /\
      truthy_opt (parent win) = true /\
      find_id (parent win) curr = Some sibling /\
      unsnapWindow i curr
      = map (fun w =>
               if (id w =? id sibling)%Z
               then with_flags
                      (with_geometry sibling (top sibling) (left sibling)
                         (width sibling + width win)
                         (height sibling + height win))
                      false None
               else if (id w =? i)%Z then cleared w
               else w) curr).
Proof.
  unfold unsnapWindow.
  destruct (find_id (Some i) curr) as [win|] eqn:Hwin; [|left; reflexivity].
  destruct (isSnapped win) eqn:Hs; [|left; reflexivity].
  destruct (truthy_opt (parent win)) eqn:Hp; [|left; reflexivity].
  simpl.
  destruct (find_id (parent win) curr) as [sibling|] eqn:Hsib.
  - right. right. exists win, sibling. auto.
  - right. left. exists win. auto.
Qed.

(** X5. Unsnapping twice is unsnapping once: after [unsnapWindow] the window
    is no longer snapped, so a second call returns the list as it is. *)
Theorem unsnapWindow_idempotent (i : Z) (curr : list WindowData) :
  unsnapWindow i (unsnapWindow i curr) = unsnapWindow i curr.
Proof.
  assert (Hdone : forall (g : WindowData -> WindowData) win,
             (forall w, id (g w) = id w) ->
             find_id (Some i) curr = Some win ->
             isSnapped (g win) = false ->
             unsnapWindow i (map g curr) = map g curr).
  { intros g win Hg Hwin Hflag. unfold unsnapWindow at 1.
    rewrite (find_id_map g _ _ Hg), Hwin. simpl. rewrite Hflag. reflexivity. }
  destruct (unsnapWindow_cases i curr)
    as [H|[[win [Hwin [_ [_ [_ H]]]]]|[win [sib [Hwin [_ [_ [Hsib H]]]]]]]].
  - rewrite H. exact H.
  - rewrite H. apply (Hdone _ win); [| exact Hwin |].
    + intros w. destruct (id w =? i)%Z; reflexivity.
    + destruct (find_id_Some _ _ _ Hwin) as [_ Hid].
      rewrite Hid, Z.eqb_refl. reflexivity.
  - rewrite H. apply (Hdone _ win); [| exact Hwin |].
    + intros w. destruct (id w =? id sib)%Z eqn:E.
      * apply Z.eqb_eq in E. simpl. symmetry. exact E.
      * destruct (id w =? i)%Z; reflexivity.
    + destruct (find_id_Some _ _ _ Hwin) as [_ Hid].
      rewrite Hid, Z.eqb_refl.
      destruct (i =? id sib)%Z; reflexivity.
Qed.

(** X6. [unsnapWindow] changes no window other than the one it is called for
    and the one recorded as its parent: a window of the list with another id
    is at the same place of the list, with all its fields, afterwards. *)
Theorem unsnapWindow_frame
    (i : Z) (curr : list WindowData) (win w : WindowData) (n : nat) :
  find_id (Some i) curr = Some win ->
  nth_error curr n = Some w ->
  id w <> i -> parent win <> Some (id w) ->
  nth_error (unsnapWindow i curr) n = Some w.
Proof.
  intros Hwin Hn Hi Hp.
  destruct (unsnapWindow_cases i curr)
    as [H|[[win' [_ [_ [_ [_ H]]]]]|[win' [sib [Hwin' [_ [_ [Hsib H]]]]]]]];
    rewrite H; [exact Hn | |];
    rewrite nth_error_map, Hn; simpl.
  - apply Z.eqb_neq in Hi. rewrite Hi. reflexivity.
  - rewrite Hwin in Hwin'. injection Hwin' as <-.
    apply find_id_opt_Some in Hsib. destruct Hsib as [_ Hpar].
    assert (E : (id w =? id sib)%Z = false)
      by (apply Z.eqb_neq; intros E; apply Hp; rewrite Hpar, E; reflexivity).
    apply Z.eqb_neq in Hi. rewrite E, Hi. reflexivity.
Qed.

Lemma unsnapWindow_frame_witness :
  exists w,
    nth_error (windows split_with_bystander) 2 = Some w /\
    nth_error (unsnapWindow 2 (windows split_with_bystander)) 2 = Some w.
Proof.
  eexists. split; [reflexivity|].
  eapply (unsnapWindow_frame 2 (windows split_with_bystander));
    [reflexivity | reflexivity | discriminate | discriminate].
Defined.

(** X7. In a list without duplicate ids, [unsnapWindow] never moves a window
    and never changes its id or colour: every window is at its place of the
    list with the same [top] and [left]; and a window it changes at all ends
    up with [isSnapped = false] and [parent = null]. *)
Theorem unsnapWindow_keeps_position
    (i : Z) (curr : list WindowData) (w : WindowData) (n : nat) :
  NoDup (ids curr) ->
  nth_error curr n = Some w ->
  exists w',
    nth_error (unsnapWindow i curr) n = Some w' /\
    id w' = id w /\ color w' = color w /\
    top w' = top w /\ left w' = left w /\
    (w' = w \/ isSnapped w' = false /\ parent w' = None).
Proof.
  intros Hnd Hn.
  destruct (unsnapWindow_cases i curr)
    as [H|[[win [_ [_ [_ [_ H]]]]]|[win [sib [_ [_ [_ [Hsib H]]]]]]]];
    rewrite H.
  - exists w. auto 10.
  - rewrite nth_error_map, Hn. simpl. eexists. split; [reflexivity|].
    destruct (id w =? i)%Z; simpl; auto 10.
  - rewrite nth_error_map, Hn. simpl. eexists. split; [reflexivity|].
    destruct (id w =? id sib)%Z eqn:E.
    + apply Z.eqb_eq in E.
      apply find_id_opt_Some in Hsib. destruct Hsib as [Hin _].
      assert (Hw : w = sib)
        by (apply (NoDup_ids_inj curr); auto; eapply nth_error_In; eauto).
      subst sib. simpl. auto 10.
    + destruct (id w =? i)%Z; simpl; auto 10.
Qed.

Lemma unsnapWindow_keeps_position_witness :
  exists w',
    nth_error (unsnapWindow 2 (windows split_with_bystander)) 0 = Some w' /\
    id w' = 1%Z /\ color w' = black /\
    top w' = 0 /\ left w' = 300 # 2 /\
    (w' = {| id := 1; color := black; top := 0; left := 300 # 2;
             width := 300 # 2; height := 200;
             isSnapped := false; parent := None |}
     \/ isSnapped w' = false /\ parent w' = None).
Proof.
  apply (unsnapWindow_keeps_position 2 (windows split_with_bystander)
           {| id := 1; color := black; top := 0; left := 300 # 2;
              width := 300 # 2; height := 200;
              isSnapped := false; parent := None |} 0).
  - repeat constructor; simpl; intuition discriminate.
  - reflexivity.
Defined.

(** X8. Dangling parent.  When the window is snapped and the parent it
    records is the id of no window of the list, [unsnapWindow] only clears
    the flags of the windows with the given id: every window keeps its
    geometry and every other window all its fields. *)
Theorem unsnapWindow_dangling_parent
    (i p : Z) (curr : list WindowData) (win : WindowData) :
  find_id (Some i) curr = Some win ->
  isSnapped win = true -> parent win = Some p -> p <> 0%Z ->
  ~ In p (ids curr) ->
  unsnapWindow i curr
  = map (fun w => if (id w =? i)%Z then cleared w else w) curr /\
  (forall n w, nth_error curr n = Some w ->
     exists w',
       nth_error (unsnapWindow i curr) n = Some w' /\
       same_geometry w' w /\ (id w <> i -> w' = w) /\
       (id w = i -> isSnapped w' = false /\ parent w' = None)).
Proof.
  intros Hwin Hs Hp Hp0 Hout.
  assert (H : unsnapWindow i curr
              = map (fun w => if (id w =? i)%Z then cleared w else w) curr).
  { unfold unsnapWindow. rewrite Hwin, Hs, Hp. simpl.
    apply truthy_true in Hp0. rewrite Hp0. simpl.
    rewrite (find_id_absent _ _ Hout). reflexivity. }
  split; [exact H|].
  intros n w Hn. rewrite H, nth_error_map, Hn. simpl.
  eexists. split; [reflexivity|].
  destruct (id w =? i)%Z eqn:E.
  - apply Z.eqb_eq in E. unfold same_geometry. simpl.
    split; [repeat split; reflexivity|].
    split; [intros Hne; contradiction | intros _; split; reflexivity].
  - apply Z.eqb_neq in E. unfold same_geometry.
    split; [repeat split; reflexivity|].
    split; [reflexivity | intros Heq; contradiction].
Qed.

Lemma unsnapWindow_dangling_parent_witness :
  unsnapWindow 2 (windows (closeWindow 1 split_with_bystander))
  = map (fun w => if (id w =? 2)%Z then cleared w else w)
      (windows (closeWindow 1 split_with_bystander)) /\
  (forall n w,
     nth_error (windows (closeWindow 1 split_with_bystander)) n = Some w ->
     exists w',
       nth_error (unsnapWindow 2 (windows (closeWindow 1 split_with_bystander)))
         n = Some w' /\
       same_geometry w' w /\ (id w <> 2%Z -> w' = w) /\
       (id w = 2%Z -> isSnapped w' = false /\ parent w' = None)).
Proof.
  eapply (unsnapWindow_dangling_parent 2 1
            (windows (closeWindow 1 split_with_bystander)));
    [reflexivity | reflexivity | reflexivity | discriminate |].
  simpl. intros [H|[H|[]]]; discriminate H.
Defined.

(** ** [handleDrag] *)

(** [handleDrag] when its guard lets the event through. *)
Lemma handleDrag_applied
    (vp : Viewport) (e : DragEvent) (i : Z) (s : AppState) (p : Position) :
  draggedWindowId s = Some i -> dragStartPos s = Some p ->
  ~ clientX e == 0 ->
  handleDrag vp e i s
  = {| windows :=
         map (translate i (clientX e - x p) (clientY e - y p)) (windows s);
       snapIndicator :=
         resolveIndicator vp (clientX e) (clientY e) i (windows s);
       draggedWindowId := Some i;
       dragStartPos := Some {| x := clientX e; y := clientY e |} |}.
Proof.
  intros Hd Hp Hx. unfold handleDrag. rewrite Hd, Hp. simpl.
  rewrite Z.eqb_refl. simpl.
  destruct (Qeq_bool (clientX e) 0) eqn:E; [|reflexivity].
  apply Qeq_bool_iff in E. contradiction.
Qed.

(** The loop skips every window with the dragged id, so it does not see a
    change made to those windows only. *)
Lemma scanWindows_skips_dragged
    (f : WindowData -> WindowData) (ind : SnapIndicatorState) (cx cy : Q)
    (i : Z) (ws : list WindowData) :
  (forall w, id (f w) = id w) -> (forall w, id w <> i -> f w = w) ->
  scanWindows ind cx cy i (map f ws) = scanWindows ind cx cy i ws.
Proof.
  intros Hid Hother.
  induction ws as [|w rest IH]; simpl; [reflexivity|].
  rewrite Hid. destruct (id w =? i)%Z eqn:E; [exact IH|].
  apply Z.eqb_neq in E. rewrite (Hother w E).
  destruct (inside cx cy w); simpl; [reflexivity | exact IH].
Qed.

Lemma translate_id (i : Z) (dx dy : Q) (w : WindowData) :
  id (translate i dx dy w) = id w.
Proof. unfold translate. destruct (id w =? i)%Z; reflexivity. Qed.

Lemma translate_other (i : Z) (dx dy : Q) (w : WindowData) :
  id w <> i -> translate i dx dy w = w.
Proof.
  intros H. unfold translate. apply Z.eqb_neq in H. rewrite H. reflexivity.
Qed.

(** X9. The decision [handleDrag] publishes is computed from the window list
    as it was before the move, and it is also the resolver's decision for the
    list as it is after the move: the resolver never looks at the dragged
    window, the only one that moved. *)
Theorem drag_decision_is_current
    (vp : Viewport) (e : DragEvent) (i : Z) (s : AppState) (p : Position) :
  draggedWindowId s = Some i -> dragStartPos s = Some p ->
  ~ clientX e == 0 ->
  snapIndicator (handleDrag vp e i s)
  = resolveIndicator vp (clientX e) (clientY e) i
      (windows (handleDrag vp e i s)).
Proof.
  intros Hd Hp Hx. rewrite (handleDrag_applied vp e i s p Hd Hp Hx). simpl.
  unfold resolveIndicator.
  rewrite scanWindows_skips_dragged;
    [reflexivity | apply translate_id | apply translate_other].
Qed.

Lemma drag_decision_is_current_witness :
  snapIndicator (handleDrag vp1200x800 {| clientX := 10; clientY := 100 |} 2
                   two_windows_dragging)
  = resolveIndicator vp1200x800 10 100 2
      (windows (handleDrag vp1200x800 {| clientX := 10; clientY := 100 |} 2
                  two_windows_dragging)).
Proof.
  apply (drag_decision_is_current vp1200x800
           {| clientX := 10; clientY := 100 |} 2 two_windows_dragging
           {| x := 510; y := 310 |}); try reflexivity.
  intros H. discriminate H.
Defined.

(** ** [handleDrop] *)

(** [handleDrop] when its guard lets the drop through. *)
Lemma handleDrop_committed (vp : Viewport) (s : AppState) (d : Z) :
  draggedWindowId s = Some d -> d <> 0%Z ->
  show (snapIndicator s) = true ->
  handleDrop vp s
  = {| windows :=
         dropUpdate vp d (side (snapIndicator s)) (target (snapIndicator s))
           (windows s);
       snapIndicator := EMPTY_INDICATOR;
       draggedWindowId := None;
       dragStartPos := None |}.
Proof.
  intros Hd Hd0 Hshow. apply truthy_true in Hd0.
  unfold handleDrop. rewrite Hd, Hshow, Hd0. reflexivity.
Qed.

(** [handleDrop] returns the state as it is, or commits. *)
Lemma handleDrop_cases (vp : Viewport) (s : AppState) :
  handleDrop vp s = s \/
  exists d,
    handleDrop vp s
    = {| windows :=
           dropUpdate vp d (side (snapIndicator s)) (target (snapIndicator s))
             (windows s);
         snapIndicator := EMPTY_INDICATOR;
         draggedWindowId := None;
         dragStartPos := None |}.
Proof.
  unfold handleDrop.
  destruct (draggedWindowId s) as [d|]; [|left; reflexivity].
  destruct (negb (show (snapIndicator s)) || negb (truthy d));
    [left; reflexivity|].
  right. exists d. reflexivity.
Qed.

(** After [handleDrop], no dragged id is recorded or no indicator is
    shown. *)
Lemma handleDrop_settled (vp : Viewport) (s : AppState) :
  show (snapIndicator (handleDrop vp s)) = false \/
  truthy_opt (draggedWindowId (handleDrop vp s)) = false.
Proof.
  unfold handleDrop.
  destruct (draggedWindowId s) as [d|] eqn:Hd; [|right; rewrite Hd; reflexivity].
  destruct (show (snapIndicator s)) eqn:Hshow; simpl;
    [|left; exact Hshow].
  destruct (truthy d) eqn:Ht; simpl.
  - left. reflexivity.
  - right. rewrite Hd. exact Ht.
Qed.

(** X11. A second drop does nothing: [handleDrop] run on the state a
    [handleDrop] left returns that state, whatever the viewports.  (It is
    the handler of both the [Window] and the [App] element.) *)
Theorem handleDrop_twice (vp vp' : Viewport) (s : AppState) :
  handleDrop vp' (handleDrop vp s) = handleDrop vp s.
Proof.
  pose proof (handleDrop_settled vp s) as H.
  unfold handleDrop at 1.
  destruct (draggedWindowId (handleDrop vp s)) as [d|]; [|reflexivity].
  destruct H as [H|H].
  - rewrite H. reflexivity.
  - simpl in H. rewrite H, orb_true_r. reflexivity.
Qed.

(** X12. Once a drop has been committed the drag is over: a drag event that
    still arrives, for any window, leaves the state as the drop left it. *)
Theorem drag_after_commit_is_ignored
    (vp vp' : Viewport) (e : DragEvent) (i d : Z) (s : AppState) :
  draggedWindowId s = Some d -> d <> 0%Z ->
  show (snapIndicator s) = true ->
  handleDrag vp' e i (handleDrop vp s) = handleDrop vp s.
Proof.
  intros Hd Hd0 Hshow.
  rewrite (handleDrop_committed vp s d Hd Hd0 Hshow).
  reflexivity.
Qed.

Lemma drag_after_commit_is_ignored_witness :
  handleDrag vp1200x800 {| clientX := 700; clientY := 20 |} 2
    (handleDrop vp1200x800 over_left_edge)
  = handleDrop vp1200x800 over_left_edge.
Proof.
  apply (drag_after_commit_is_ignored vp1200x800 vp1200x800
           {| clientX := 700; clientY := 20 |} 2 2 over_left_edge);
    [reflexivity | discriminate | reflexivity].
Defined.

Lemma lookup_splitUpdates_other (sd : SnapSide) (tg d k : Z)
    (t dragged : WindowData) :
  k <> d -> k <> tg -> lookup k (splitUpdates sd tg d t dragged) = None.
Proof.
  intros Hd Ht. apply Z.eqb_neq in Hd. apply Z.eqb_neq in Ht.
  destruct sd; simpl; rewrite Hd, Ht; reflexivity.
Qed.

(** X13. [handleDrop] changes no window other than the dragged one and the
    target of the decision: a window of the list whose id is neither is at
    the same place of the list, with all its fields, afterwards. *)
Theorem handleDrop_frame
    (vp : Viewport) (s : AppState) (n : nat) (w : WindowData) :
  nth_error (windows s) n = Some w ->
  draggedWindowId s <> Some (id w) ->
  target (snapIndicator s) <> Some (id w) ->
  nth_error (windows (handleDrop vp s)) n = Some w.
Proof.
  intros Hn Hd Ht. unfold handleDrop.
  destruct (draggedWindowId s) as [d|]; [|exact Hn].
  destruct (negb (show (snapIndicator s)) || negb (truthy d)); [exact Hn|].
  simpl. unfold dropUpdate.
  assert (Hwd : (id w =? d)%Z = false)
    by (apply Z.eqb_neq; intros E; apply Hd; rewrite E; reflexivity).
  destruct (find_id (Some d) (windows s)) as [dragged|]; [|exact Hn].
  destruct (side (snapIndicator s)) as [sd|]; [|exact Hn].
  assert (Hfull : nth_error
                    (map (fun v => if (id v =? d)%Z then snapMap vp sd v else v)
                       (windows s)) n = Some w)
    by (rewrite nth_error_map, Hn; simpl; rewrite Hwd; reflexivity).
  destruct (target (snapIndicator s)) as [tg|]; [|exact Hfull].
  destruct (truthy tg); [|exact Hfull].
  destruct (find_id (Some tg) (windows s)) as [t|]; [|exact Hn].
  rewrite nth_error_map, Hn. simpl.
  rewrite lookup_splitUpdates_other; [reflexivity | |].
  - apply Z.eqb_neq. exact Hwd.
  - intros E. apply Ht. rewrite E. reflexivity.
Qed.

Lemma handleDrop_frame_witness :
  exists w,
    nth_error (windows (run [ EvCreate vp1200x800 3 black (3 # 4) (3 # 4) ]
                          over_left_edge)) 2 = Some w /\
    nth_error (windows (handleDrop vp1200x800
                          (run [ EvCreate vp1200x800 3 black (3 # 4) (3 # 4) ]
                             over_left_edge))) 2 = Some w.
Proof.
  eexists. split; [reflexivity|].
  apply (handleDrop_frame vp1200x800
           (run [ EvCreate vp1200x800 3 black (3 # 4) (3 # 4) ]
              over_left_edge) 2);
    [reflexivity | discriminate | discriminate].
Defined.

(** X14. Flags after a split.  When a drop splits the target [T] for the
    dragged window [D] (two different windows), [D] becomes snapped with [T]
    as its parent and keeps its id and colour; [T] keeps its id, colour,
    [isSnapped] and [parent] exactly as they were: only the dragged window
    records the relation. *)
Theorem split_flags
    (vp : Viewport) (s : AppState) (d tg : Z) (sd : SnapSide)
    (D T : WindowData) :
  draggedWindowId s = Some d -> d <> 0%Z ->
  show (snapIndicator s) = true ->
  side (snapIndicator s) = Some sd ->
  target (snapIndicator s) = Some tg -> tg <> 0%Z ->
  find_id (Some d) (windows s) = Some D ->
  find_id (Some tg) (windows s) = Some T ->
  d <> tg ->
  exists D' T',
    find_id (Some d) (windows (handleDrop vp s)) = Some D' /\
    find_id (Some tg) (windows (handleDrop vp s)) = Some T' /\
    id D' = d /\ color D' = color D /\
    isSnapped D' = true /\ parent D' = Some tg /\
    id T' = tg /\ color T' = color T /\
    isSnapped T' = isSnapped T /\ parent T' = parent T.
Proof.
  intros Hd Hd0 Hshow Hside Htg Htg0 HD HT Hne.
  rewrite (handleDrop_committed vp s d Hd Hd0 Hshow). simpl.
  apply truthy_true in Htg0.
  destruct (find_id_Some _ _ _ HD) as [_ HidD].
  destruct (find_id_Some _ _ _ HT) as [_ HidT].
  unfold dropUpdate. rewrite Hside, Htg, HD, Htg0, HT.
  rewrite !find_id_map by (apply split_applied; assumption).
  rewrite HD, HT. simpl.
  eexists. eexists. split; [reflexivity|]. split; [reflexivity|].
  rewrite HidD, HidT.
  assert (Hdd : (d =? d)%Z = true) by apply Z.eqb_refl.
  assert (Htt : (tg =? tg)%Z = true) by apply Z.eqb_refl.
  assert (Htd : (tg =? d)%Z = false) by (apply Z.eqb_neq; congruence).
  destruct sd; simpl; rewrite Hdd, Htd, Htt; simpl; repeat split; assumption.
Qed.

Lemma split_flags_witness :
  exists D' T',
    find_id (Some 2%Z) (windows (handleDrop vp1200x800 over_left_edge))
      = Some D' /\
    find_id (Some 1%Z) (windows (handleDrop vp1200x800 over_left_edge))
      = Some T' /\
    id D' = 2%Z /\ color D' = color second_window /\
    isSnapped D' = true /\ parent D' = Some 1%Z /\
    id T' = 1%Z /\ color T' = color corner_window /\
    isSnapped T' = isSnapped corner_window /\
    parent T' = parent corner_window.
Proof.
  apply (split_flags vp1200x800 over_left_edge 2%Z 1%Z SLeft
           (translate 2 (10 - 510) (100 - 310) second_window) corner_window);
    try reflexivity; discriminate.
Defined.

(** ** Snapping to a screen half, all four sides *)

(** X16. A drop on a decision without a target gives the dragged window the
    half of the viewport, as it is at the drop, on the side of the decision:
    half the width (left, right) or half the height (top, bottom) and the full
    extent along the other axis.  The window is snapped and has no parent,
    and keeps its id and colour. *)
Theorem screen_snap_commit
    (vp : Viewport) (s : AppState) (d : Z) (sd : SnapSide) (D : WindowData) :
  draggedWindowId s = Some d -> d <> 0%Z ->
  show (snapIndicator s) = true ->
  side (snapIndicator s) = Some sd ->
  truthy_opt (target (snapIndicator s)) = false ->
  find_id (Some d) (windows s) = Some D ->
  exists D',
    find_id (Some d) (windows (handleDrop vp s)) = Some D' /\
    id D' = d /\ color D' = color D /\
    isSnapped D' = true /\ parent D' = None /\
    match sd with
    | SLeft =>
        top D' == 0 /\ left D' == 0 /\
        width D' == innerWidth vp / 2 /\ height D' == innerHeight vp
    | SRight =>
        top D' == 0 /\ left D' == innerWidth vp / 2 /\
        width D' == innerWidth vp / 2 /\ height D' == innerHeight vp
    | STop =>
        top D' == 0 /\ left D' == 0 /\
        width D' == innerWidth vp /\ height D' == innerHeight vp / 2
    | SBottom =>
        top D' == innerHeight vp / 2 /\ left D' == 0 /\
        width D' == innerWidth vp /\ height D' == innerHeight vp / 2
    end.
Proof.
  intros Hd Hd0 Hshow Hside Htgt HD.
  rewrite (handleDrop_committed vp s d Hd Hd0 Hshow). simpl.
  destruct (find_id_Some _ _ _ HD) as [_ HidD].
  assert (Hmap : dropUpdate vp d (Some sd) (target (snapIndicator s))
                   (windows s)
                 = map (fun w => if (id w =? d)%Z then snapMap vp sd w else w)
                     (windows s)).
  { unfold dropUpdate. rewrite HD.
    destruct (target (snapIndicator s)) as [tg|]; [|reflexivity].
    simpl in Htgt. rewrite Htgt. reflexivity. }
  rewrite Hside, Hmap.
  rewrite find_id_map
    by (intros w; destruct (id w =? d)%Z; [apply snapMap_id | reflexivity]).
  rewrite HD. simpl. rewrite HidD, Z.eqb_refl.
  eexists. split; [reflexivity|].
  destruct sd; simpl; repeat split; try reflexivity; exact HidD.
Qed.

Lemma screen_snap_commit_witness :
  exists D',
    find_id (Some 2%Z) (windows (handleDrop vp1200x800 over_wide_window))
      = Some D' /\
    id D' = 2%Z /\
    color D' = color (translate 2 (1180 - 10) (400 - 10) corner_window) /\
    isSnapped D' = true /\ parent D' = None /\
    (top D' == 0 /\ left D' == 1200 / 2 /\
     width D' == 1200 / 2 /\ height D' == 800).
Proof.
  apply (screen_snap_commit vp1200x800 over_wide_window 2 SRight
           (with_geometry
              {| id := 2; color := black; top := 0 * (800 - 200);
                 left := 0 * (1200 - 200); width := 300; height := 200;
                 isSnapped := false; parent := None |}
              (0 * (800 - 200) + (400 - 10)) (0 * (1200 - 200) + (1180 - 10))
              300 200));
    try reflexivity; discriminate.
Defined.

(** X17. The two opposite halves [handleDrop] hands out tile the screen: the
    left and the right half, and the top and the bottom half, cover exactly
    the points of the viewport and share none. *)
Theorem screen_halves_tile (vp : Viewport) (a b : WindowData) :
  tiles (screen_rect vp) (snapMap vp SLeft a) (snapMap vp SRight b) /\
  tiles (screen_rect vp) (snapMap vp STop a) (snapMap vp SBottom b).
Proof.
  split.
  - apply halves_tile_h; simpl; lra.
  - apply halves_tile_v; simpl; lra.
Qed.

(** ** The decisions of the resolver *)


(** Every indicator the resolver returns is the empty one, one of the four
    screen halves, or one of the four halves of the first window that is not
    the dragged one and contains the pointer. *)
Lemma resolveIndicator_shapes (vp : Viewport) (cx cy : Q) (i : Z)
    (ws : list WindowData) :
  resolveIndicator vp cx cy i ws = EMPTY_INDICATOR \/
  In (resolveIndicator vp cx cy i ws)
     [screen_left; screen_right; screen_top; screen_bottom] \/
  exists w,
    first_containing cx cy i ws = Some w /\
    In (resolveIndicator vp cx cy i ws)
       [panel_left w; panel_right w; panel_top w; panel_bottom w].
Proof.
  unfold resolveIndicator. rewrite scanWindows_first_containing.
  assert (Hscreen : screenIndicator vp EMPTY_INDICATOR cx cy = EMPTY_INDICATOR
                    \/ In (screenIndicator vp EMPTY_INDICATOR cx cy)
                         [screen_left; screen_right; screen_top;
                          screen_bottom]).
  { unfold screenIndicator. simpl.
    destruct (Qltb cx SNAP_THRESHOLD); [right; simpl; auto|].
    destruct (Qltb (innerWidth vp - SNAP_THRESHOLD) cx);
      [right; simpl; auto|].
    destruct (Qltb cy SNAP_THRESHOLD); [right; simpl; auto|].
    destruct (Qltb (innerHeight vp - SNAP_THRESHOLD) cy);
      [right; simpl; auto|].
    left. reflexivity. }
  destruct (first_containing cx cy i ws) as [w|] eqn:Hw;
    [|destruct Hscreen; auto].
  unfold panelIndicator.
  destruct (Qltb cx (left w + SNAP_THRESHOLD));
    [right; right; exists w; simpl; auto|].
  destruct (Qltb (left w + width w - SNAP_THRESHOLD) cx);
    [right; right; exists w; simpl; auto|].
  destruct (Qltb cy (top w + SNAP_THRESHOLD));
    [right; right; exists w; simpl; auto|].
  destruct (Qltb (top w + height w - SNAP_THRESHOLD) cy);
    [right; right; exists w; simpl; auto 6|].
  destruct Hscreen; auto.
Qed.

(** Side and target of a decision, read off its shape. *)
Lemma resolver_shape_side (vp : Viewport) (cx cy : Q) (i : Z)
    (ws : list WindowData) :
  show (resolveIndicator vp cx cy i ws) = true <->
  side (resolveIndicator vp cx cy i ws) <> None.
Proof.
  destruct (resolveIndicator_shapes vp cx cy i ws)
    as [H|[H|[w [_ H]]]].
  - rewrite H. simpl. split; [discriminate | congruence].
  - simpl in H. destruct H as [H|[H|[H|[H|[]]]]]; rewrite <- H; simpl;
      (split; [discriminate | reflexivity]).
  - simpl in H. destruct H as [H|[H|[H|[H|[]]]]]; rewrite <- H; simpl;
      (split; [discriminate | reflexivity]).
Qed.

Lemma resolver_shape_target (vp : Viewport) (cx cy : Q) (i : Z)
    (ws : list WindowData) (t : Z) :
  target (resolveIndicator vp cx cy i ws) = Some t ->
  show (resolveIndicator vp cx cy i ws) = true.
Proof.
  destruct (resolveIndicator_shapes vp cx cy i ws)
    as [H|[H|[w [_ H]]]].
  - rewrite H. discriminate.
  - simpl in H. destruct H as [H|[H|[H|[H|[]]]]]; rewrite <- H; discriminate.
  - simpl in H. destruct H as [H|[H|[H|[H|[]]]]]; rewrite <- H; reflexivity.
Qed.

(** X18. Every decision of the resolver is well formed.  It is shown exactly
    when it has a side.  When it names a target, it is shown, and the target
    is the id of a window of the list that is not the dragged one and
    contains the pointer; its preview geometry is then in pixels. *)
Theorem resolver_decision_well_formed
    (vp : Viewport) (cx cy : Q) (i : Z) (ws : list WindowData) :
  (show (resolveIndicator vp cx cy i ws) = true <->
   side (resolveIndicator vp cx cy i ws) <> None) /\
  (forall t,
      target (resolveIndicator vp cx cy i ws) = Some t ->
      show (resolveIndicator vp cx cy i ws) = true /\
      t <> i /\
      (exists w, In w ws /\ id w = t /\ inside cx cy w = true) /\
      (exists a b c d,
          ind_top (resolveIndicator vp cx cy i ws) = Px a /\
          ind_left (resolveIndicator vp cx cy i ws) = Px b /\
          ind_width (resolveIndicator vp cx cy i ws) = Px c /\
          ind_height (resolveIndicator vp cx cy i ws) = Px d)).
Proof.
  destruct (resolveIndicator_shapes vp cx cy i ws)
    as [H|[H|[w [Hw H]]]].
  - rewrite H. simpl. split; [split; [discriminate | congruence]|].
    intros t Ht. discriminate Ht.
  - simpl in H. destruct H as [H|[H|[H|[H|[]]]]]; rewrite <- H; simpl;
      (split; [split; [discriminate | reflexivity]|]);
      intros t Ht; discriminate Ht.
  - apply first_containing_Some in Hw. destruct Hw as [Hin [Hne Hins]].
    simpl in H. destruct H as [H|[H|[H|[H|[]]]]]; rewrite <- H; simpl;
      (split; [split; [discriminate | reflexivity]|]);
      intros t Ht; injection Ht as <-;
      (split; [reflexivity|]); (split; [exact Hne|]);
      (split; [exists w; auto|]);
      do 4 eexists; repeat split; reflexivity.
Qed.

Lemma resolver_decision_well_formed_witness :
  show (resolveIndicator vp1200x800 10 100 2 (windows two_windows_dragging))
    = true /\
  1%Z <> 2%Z /\
  (exists w, In w (windows two_windows_dragging) /\ id w = 1%Z /\
             inside 10 100 w = true) /\
  (exists a b c d,
      ind_top (resolveIndicator vp1200x800 10 100 2
                 (windows two_windows_dragging)) = Px a /\
      ind_left (resolveIndicator vp1200x800 10 100 2
                  (windows two_windows_dragging)) = Px b /\
      ind_width (resolveIndicator vp1200x800 10 100 2
                   (windows two_windows_dragging)) = Px c /\
      ind_height (resolveIndicator vp1200x800 10 100 2
                    (windows two_windows_dragging)) = Px d).
Proof.
  apply (proj2 (resolver_decision_well_formed vp1200x800 10 100 2
                  (windows two_windows_dragging)) 1%Z).
  reflexivity.
Defined.

(** ** What holds in every reachable state *)

Lemma unsnapWindow_flags (i : Z) (curr : list WindowData) :
  (forall w, In w curr -> flags_consistent w) ->
  forall w, In w (unsnapWindow i curr) -> flags_consistent w.
Proof.
  intros Hall w Hw.
  destruct (unsnapWindow_cases i curr)
    as [H|[[win [_ [_ [_ [_ H]]]]]|[win [sib [_ [_ [_ [_ H]]]]]]]];
    rewrite H in Hw; [auto | |];
    apply in_map_iff in Hw; destruct Hw as [v [Hv Hin]]; subst w.
  - destruct (id v =? i)%Z; [|auto]. intros Hp. exfalso. apply Hp. reflexivity.
  - destruct (id v =? id sib)%Z;
      [intros Hp; exfalso; apply Hp; reflexivity|].
    destruct (id v =? i)%Z; [|auto]. intros Hp. exfalso. apply Hp. reflexivity.
Qed.

Lemma lookup_splitUpdates_flags (sd : SnapSide) (tg d k : Z)
    (t dragged u : WindowData) :
  lookup k (splitUpdates sd tg d t dragged) = Some u ->
  isSnapped u = true \/ (isSnapped u = isSnapped t /\ parent u = parent t).
Proof.
  destruct sd; simpl;
    (destruct (k =? d)%Z;
     [ intros H; injection H as <-; left; reflexivity
     | destruct (k =? tg)%Z;
       [ intros H; injection H as <-; right; split; reflexivity
       | discriminate ] ]).
Qed.

Lemma snapMap_snapped (vp : Viewport) (sd : SnapSide) (w : WindowData) :
  isSnapped (snapMap vp sd w) = true.
Proof. destruct sd; reflexivity. Qed.

Lemma dropUpdate_flags (vp : Viewport) (d : Z) (sd : option SnapSide)
    (tgt : option Z) (curr : list WindowData) :
  (forall w, In w curr -> flags_consistent w) ->
  forall w, In w (dropUpdate vp d sd tgt curr) -> flags_consistent w.
Proof.
  intros Hall w Hw. unfold dropUpdate in Hw.
  destruct (find_id (Some d) curr) as [dragged|]; [|auto].
  destruct sd as [sd|]; [|auto].
  assert (Hfull : In w (map (fun v => if (id v =? d)%Z then snapMap vp sd v
                                      else v) curr) -> flags_consistent w).
  { intros H. apply in_map_iff in H. destruct H as [v [Hv Hin]]. subst w.
    destruct (id v =? d)%Z; [|auto]. intros _. apply snapMap_snapped. }
  destruct tgt as [tg|]; [|auto].
  destruct (truthy tg); [|auto].
  destruct (find_id (Some tg) curr) as [t|] eqn:Ht; [|auto].
  apply find_id_Some in Ht. destruct Ht as [Htin _].
  apply in_map_iff in Hw. destruct Hw as [v [Hv Hin]]. subst w.
  destruct (lookup (id v) (splitUpdates sd tg d t dragged)) as [u|] eqn:Hu;
    [|auto].
  apply lookup_splitUpdates_flags in Hu. destruct Hu as [Hu|[Hs Hp]].
  - intros _. exact Hu.
  - unfold flags_consistent. rewrite Hs, Hp. apply Hall. exact Htin.
Qed.

(** X20. In every state the component can reach: a dragged id is recorded
    exactly when a pointer position is; every window that records a parent
    is marked as snapped; and the indicator is shown exactly when it has a
    side, and names a target only when it is shown. *)
Theorem reachable_state_shape (s : AppState) :
  reachable s ->
  (draggedWindowId s = None <-> dragStartPos s = None) /\
  (forall w, In w (windows s) -> flags_consistent w) /\
  (show (snapIndicator s) = true <-> side (snapIndicator s) <> None) /\
  (forall t, target (snapIndicator s) = Some t ->
             show (snapIndicator s) = true).
Proof.
  induction 1 as [|ev s Hreach IH Hwf].
  - simpl. repeat split; try discriminate; try congruence.
    intros w [].
  - destruct IH as [Irefs [Iflags [Iside Itgt]]].
    assert (Hinv : (draggedWindowId s = None <-> dragStartPos s = None) /\
                   (forall w, In w (windows s) -> flags_consistent w) /\
                   (show (snapIndicator s) = true <->
                    side (snapIndicator s) <> None) /\
                   (forall t, target (snapIndicator s) = Some t ->
                              show (snapIndicator s) = true))
      by auto.
    destruct ev as [vp now c r1 r2|i|e i|vp e i|vp]; simpl.
    + (* createWindow *)
      split; [exact Irefs|]. split; [|split; assumption].
      intros w Hw. apply in_app_or in Hw. destruct Hw as [Hw|[Hw|[]]];
        [auto|]. subst w. intros Hp. exfalso. apply Hp. reflexivity.
    + (* closeWindow *)
      split; [exact Irefs|]. split; [|split; assumption].
      intros w Hw. apply filter_In in Hw. destruct Hw as [Hw _].
      apply (unsnapWindow_flags i (windows s)); assumption.
    + (* handleDragStart *)
      split; [split; discriminate|]. split; [|split; assumption].
      intros w Hw. apply (unsnapWindow_flags i (windows s)); assumption.
    + (* handleDrag *)
      unfold handleDrag.
      destruct (negb (strict_eq i (draggedWindowId s))
                || is_none (dragStartPos s)
                || Qeq_bool (clientX e) 0) eqn:Hguard; [exact Hinv|].
      destruct (dragStartPos s) as [p|];
        [|destruct (negb (strict_eq i (draggedWindowId s)));
          discriminate Hguard].
      destruct (draggedWindowId s) as [d|]; [|discriminate Hguard].
      simpl. split; [split; discriminate|]. split; [|split].
      * intros w Hw. apply in_map_iff in Hw. destruct Hw as [v [Hv Hin]].
        subst w. unfold translate. destruct (id v =? i)%Z; [|auto].
        exact (Iflags v Hin).
      * apply resolver_shape_side.
      * apply resolver_shape_target.
    + (* handleDrop *)
      destruct (handleDrop_cases vp s) as [H|[d H]]; rewrite H;
        [exact Hinv|].
      simpl. split; [split; reflexivity|]. split; [|split].
      * apply dropUpdate_flags. exact Iflags.
      * split; [discriminate | congruence].
      * discriminate.
Qed.

Lemma reachable_state_shape_witness :
  (draggedWindowId over_left_edge = None <->
   dragStartPos over_left_edge = None) /\
  (forall w, In w (windows over_left_edge) -> flags_consistent w) /\
  (show (snapIndicator over_left_edge) = true <->
   side (snapIndicator over_left_edge) <> None) /\
  (forall t, target (snapIndicator over_left_edge) = Some t ->
             show (snapIndicator over_left_edge) = true).
Proof.
  apply (reachable_state_shape over_left_edge).
  unfold over_left_edge, two_windows_dragging.
  repeat apply reach_step;
    try (intros i Hi; simpl in Hi; injection Hi as <-; reflexivity).
  apply reach_init.
Defined.

(** ** Drops that commit nothing *)

(** X21. The dragged window is gone.  When a decision is shown and a dragged
    id is recorded but no window of the list has that id any more (it was
    closed during the drag), [handleDrop] leaves the window list as it is
    and clears the dragged id, the pointer position and the indicator. *)
Theorem drop_of_closed_window (vp : Viewport) (s : AppState) (d : Z) :
  draggedWindowId s = Some d -> d <> 0%Z ->
  show (snapIndicator s) = true ->
  ~ In d (ids (windows s)) ->
  handleDrop vp s
  = {| windows := windows s; snapIndicator := EMPTY_INDICATOR;
       draggedWindowId := None; dragStartPos := None |}.
Proof.
  intros Hd Hd0 Hshow Hgone.
  rewrite (handleDrop_committed vp s d Hd Hd0 Hshow).
  unfold dropUpdate. rewrite (find_id_absent _ _ Hgone). reflexivity.
Qed.

Lemma drop_of_closed_window_witness :
  handleDrop vp1200x800 (closeWindow 2 over_left_edge)
  = {| windows := windows (closeWindow 2 over_left_edge);
       snapIndicator := EMPTY_INDICATOR;
       draggedWindowId := None; dragStartPos := None |}.
Proof.
  apply (drop_of_closed_window vp1200x800 (closeWindow 2 over_left_edge) 2);
    [reflexivity | discriminate | reflexivity |].
  simpl. intros [H|[]]. discriminate H.
Defined.



(** * Properties over IEEE doubles *)

Section IEEE_properties.

Import IEEE.
Local Open Scope float_scope.

(** ** Basic facts *)

Lemma float_find_id_Some (i : Z) (curr : list WindowData) (w : WindowData) :
  find_id (Some i) curr = Some w -> In w curr /\ id w = i.
Proof.
  unfold find_id. intros H. apply find_some in H. simpl in H.
  destruct H as [Hin Heq]. apply Z.eqb_eq in Heq. auto.
Qed.

Lemma float_find_id_map (f : WindowData -> WindowData) (o : option Z)
    (curr : list WindowData) :
  (forall w, id (f w) = id w) ->
  find_id o (map f curr) = option_map f (find_id o curr).
Proof.
  intros Hf. unfold find_id.
  induction curr as [|w rest IH]; simpl; [reflexivity|].
  rewrite Hf. destruct (strict_eq (id w) o); [reflexivity | exact IH].
Qed.

Lemma float_translate_id (i : Z) (dx dy : float) (w : WindowData) :
  id (translate i dx dy w) = id w.
Proof. unfold translate. destruct (id w =? i)%Z; reflexivity. Qed.

Lemma float_translate_other (i : Z) (dx dy : float) (w : WindowData) :
  id w <> i -> translate i dx dy w = w.
Proof.
  intros H. unfold translate. apply Z.eqb_neq in H. rewrite H. reflexivity.
Qed.

Lemma float_split_applied (sd : SnapSide) (tg d : Z) (T D : WindowData) :
  id T = tg -> id D = d ->
  forall w, id (match lookup (id w) (splitUpdates sd tg d T D) with
                | Some u => u
                | None => w
                end) = id w.
Proof.
  intros HT HD w.
  destruct (lookup (id w) (splitUpdates sd tg d T D)) as [u|] eqn:Hu;
    [|reflexivity].
  revert Hu. destruct sd; simpl;
    (destruct (id w =? d)%Z eqn:Ed;
     [ intros H; injection H as <-; simpl; apply Z.eqb_eq in Ed; congruence
     | destruct (id w =? tg)%Z eqn:Et;
       [ intros H; injection H as <-; simpl; apply Z.eqb_eq in Et; congruence
       | discriminate ] ]).
Qed.

(** [handleDrag] when its guard lets the event through. *)
Lemma float_handleDrag_applied
    (vp : Viewport) (e : DragEvent) (i : Z) (s : AppState) (p : Position) :
  draggedWindowId s = Some i -> dragStartPos s = Some p ->
  (clientX e =? 0) = false ->
  handleDrag vp e i s
  = {| windows :=
         map (translate i (clientX e - x p) (clientY e - y p)) (windows s);
       snapIndicator :=
         resolveIndicator vp (clientX e) (clientY e) i (windows s);
       draggedWindowId := Some i;
       dragStartPos := Some {| x := clientX e; y := clientY e |} |}.
Proof.
  intros Hd Hp Hx. unfold handleDrag. rewrite Hd, Hp, Hx. simpl.
  rewrite Z.eqb_refl. reflexivity.
Qed.

(** [handleDrop] when its guard lets the drop through. *)
Lemma float_handleDrop_committed (vp : Viewport) (s : AppState) (d : Z) :
  draggedWindowId s = Some d -> d <> 0%Z ->
  show (snapIndicator s) = true ->
  handleDrop vp s
  = {| windows :=
         dropUpdate vp d (side (snapIndicator s)) (target (snapIndicator s))
           (windows s);
       snapIndicator := EMPTY_INDICATOR;
       draggedWindowId := None;
       dragStartPos := None |}.
Proof.
  intros Hd Hd0 Hshow. apply truthy_true in Hd0.
  unfold handleDrop. rewrite Hd, Hshow, Hd0. reflexivity.
Qed.

(** ** The snap resolver *)

(** The [if / else if] chain picks the first edge whose test the pointer
    passes, and leaves the indicator alone when it passes none. *)
Lemma float_panelIndicator_first_near (ind : SnapIndicatorState)
    (cx cy : float) (w : WindowData) :
  panelIndicator ind cx cy w =
  match first_near cx cy w with
  | Some sd => panel_half sd w
  | None => ind
  end.
Proof.
  unfold panelIndicator, first_near. simpl.
  destruct (cx <? left w + SNAP_THRESHOLD); [reflexivity|].
  destruct (left w + width w - SNAP_THRESHOLD <? cx); [reflexivity|].
  destruct (cy <? top w + SNAP_THRESHOLD); [reflexivity|].
  destruct (top w + height w - SNAP_THRESHOLD <? cy); reflexivity.
Qed.

(** The loop stops at the first window that is not the dragged one and
    contains the pointer. *)
Lemma float_scanWindows_first_containing (ind : SnapIndicatorState)
    (cx cy : float) (i : Z) (ws : list WindowData) :
  scanWindows ind cx cy i ws =
  match first_containing cx cy i ws with
  | Some w => panelIndicator ind cx cy w
  | None => ind
  end.
Proof.
  unfold first_containing.
  induction ws as [|w rest IH]; simpl; [reflexivity|].
  destruct (id w =? i)%Z; simpl; [exact IH|].
  destruct (inside cx cy w); simpl; [reflexivity | exact IH].
Qed.

Lemma float_first_containing_Some (cx cy : float) (i : Z)
    (ws : list WindowData) (w : WindowData) :
  first_containing cx cy i ws = Some w ->
  In w ws /\ id w <> i /\ inside cx cy w = true.
Proof.
  unfold first_containing. intros H. apply find_some in H.
  destruct H as [Hin H]. apply andb_true_iff in H. destruct H as [Hid Hins].
  apply negb_true_iff, Z.eqb_neq in Hid. auto.
Qed.

Lemma panel_half_fields (sd : SnapSide) (w : WindowData) :
  show (panel_half sd w) = true /\ side (panel_half sd w) = Some sd /\
  target (panel_half sd w) = Some (id w).
Proof. destruct sd; simpl; auto. Qed.

(** The decision when the first containing window has the pointer in one of
    its edge zones: the half of that window on the first such side. *)
Lemma float_resolveIndicator_panel (vp : Viewport) (cx cy : float) (i : Z)
    (ws : list WindowData) (w : WindowData) (sd : SnapSide) :
  first_containing cx cy i ws = Some w ->
  first_near cx cy w = Some sd ->
  resolveIndicator vp cx cy i ws = panel_half sd w.
Proof.
  intros Hw Hsd. unfold resolveIndicator.
  rewrite float_scanWindows_first_containing, Hw,
    float_panelIndicator_first_near, Hsd.
  unfold screenIndicator.
  destruct (panel_half_fields sd w) as [Hshow _]. rewrite Hshow. reflexivity.
Qed.

(** The screen-edge tests on the empty indicator. *)
Lemma screenIndicator_empty (vp : Viewport) (cx cy : float) :
  (show (screenIndicator vp EMPTY_INDICATOR cx cy) = false <->
   (cx <? SNAP_THRESHOLD) = false /\
   (innerWidth vp - SNAP_THRESHOLD <? cx) = false /\
   (cy <? SNAP_THRESHOLD) = false /\
   (innerHeight vp - SNAP_THRESHOLD <? cy) = false) /\
  target (screenIndicator vp EMPTY_INDICATOR cx cy) = None.
Proof.
  unfold screenIndicator. simpl.
  destruct (cx <? SNAP_THRESHOLD); simpl;
    [split; [split; [discriminate | intros [H _]; discriminate H]
            | reflexivity]|].
  destruct (innerWidth vp - SNAP_THRESHOLD <? cx); simpl;
    [split; [split; [discriminate | intros [_ [H _]]; discriminate H]
            | reflexivity]|].
  destruct (cy <? SNAP_THRESHOLD); simpl;
    [split; [split; [discriminate | intros [_ [_ [H _]]]; discriminate H]
            | reflexivity]|].
  destruct (innerHeight vp - SNAP_THRESHOLD <? cy); simpl;
    [split; [split; [discriminate | intros [_ [_ [_ H]]]; discriminate H]
            | reflexivity]|].
  split; [split; auto | reflexivity].
Qed.



(** The tests are those of the source, rounding included.  For a window at
    [left = 20.000000000000004] (the double [0x1.4000000000001p+4]) the sum
    [left + 30] is rounded to 50, so the pointer [(50, 10)] does not pass the
    left test and the side is top. *)
Lemma rounded_left_threshold :
  0x1.4000000000001p+4 + SNAP_THRESHOLD = 50 /\
  edge_test SLeft 50 10
    (with_geometry corner_window 0 0x1.4000000000001p+4 300 200) = false /\
  side (resolveIndicator vp1200x800 50 10 2
          [with_geometry corner_window 0 0x1.4000000000001p+4 300 200])
  = Some STop.
Proof. repeat split; reflexivity. Qed.




(** X19. When the resolver decides nothing.  The decision is not shown
    exactly when the first window that is not the dragged one and contains
    the pointer, if there is one, has the pointer within the threshold of
    none of its edges, and none of the four screen-edge tests
    ([clientX < 30], [clientX > innerWidth - 30], [clientY < 30],
    [clientY > innerHeight - 30], in the source's double arithmetic)
    holds. *)
Theorem resolver_inactive_iff
    (vp : Viewport) (cx cy : float) (i : Z) (ws : list WindowData) :
  show (resolveIndicator vp cx cy i ws) = false <->
  (forall w, first_containing cx cy i ws = Some w ->
             first_near cx cy w = None) /\
  (cx <? SNAP_THRESHOLD) = false /\
  (innerWidth vp - SNAP_THRESHOLD <? cx) = false /\
  (cy <? SNAP_THRESHOLD) = false /\
  (innerHeight vp - SNAP_THRESHOLD <? cy) = false.
Proof.
  destruct (screenIndicator_empty vp cx cy) as [Hscreen _].
  destruct (first_containing cx cy i ws) as [w|] eqn:Hw.
  - destruct (first_near cx cy w) as [sd|] eqn:Hsd.
    + rewrite (float_resolveIndicator_panel vp cx cy i ws w sd Hw Hsd).
      destruct (panel_half_fields sd w) as [Hshow _]. rewrite Hshow.
      split; [discriminate|].
      intros [H _]. specialize (H w eq_refl). rewrite Hsd in H.
      discriminate H.
    + unfold resolveIndicator.
      rewrite float_scanWindows_first_containing, Hw,
        float_panelIndicator_first_near, Hsd, Hscreen.
      split.
      * intros H. split; [|exact H]. intros w' Hw'.
        injection Hw' as <-. exact Hsd.
      * intros [_ H]. exact H.
  - unfold resolveIndicator.
    rewrite float_scanWindows_first_containing, Hw, Hscreen.
    split.
    + intros H. split; [|exact H]. intros w' Hw'. discriminate Hw'.
    + intros [_ H]. exact H.
Qed.

(** ** Splitting a target window *)




(** ** Dragging *)

(** X10. Dragging is relative.  After two drag events for the dragged window
    (neither with [clientX = 0]) every window is at its place of the list
    with the same id, colour, size and flags; a window with another id is
    unchanged; a window with the dragged id has been moved twice, each time
    by the way from the pointer recorded last to the pointer of the event,
    every difference and sum rounded as the source rounds it; and the
    recorded pointer position is that of the second event. *)
Theorem drag_is_relative
    (vp1 vp2 : Viewport) (e1 e2 : DragEvent) (i : Z) (s : AppState)
    (p : Position) (n : nat) (w : WindowData) :
  draggedWindowId s = Some i -> dragStartPos s = Some p ->
  (clientX e1 =? 0) = false -> (clientX e2 =? 0) = false ->
  nth_error (windows s) n = Some w ->
  dragStartPos (handleDrag vp2 e2 i (handleDrag vp1 e1 i s))
    = Some {| x := clientX e2; y := clientY e2 |} /\
  exists w',
    nth_error (windows (handleDrag vp2 e2 i (handleDrag vp1 e1 i s))) n
      = Some w' /\
    id w' = id w /\ color w' = color w /\
    width w' = width w /\ height w' = height w /\
    isSnapped w' = isSnapped w /\ parent w' = parent w /\
    (id w <> i -> w' = w) /\
    (id w = i ->
     left w' = left w + (clientX e1 - x p) + (clientX e2 - clientX e1) /\
     top w' = top w + (clientY e1 - y p) + (clientY e2 - clientY e1)).
Proof.
  intros Hd Hp Hx1 Hx2 Hn.
  rewrite (float_handleDrag_applied vp1 e1 i s p Hd Hp Hx1).
  erewrite float_handleDrag_applied; [| reflexivity | reflexivity | exact Hx2].
  simpl. split; [reflexivity|].
  rewrite !nth_error_map, Hn. simpl.
  eexists. split; [reflexivity|].
  unfold translate. destruct (id w =? i)%Z eqn:E; simpl.
  - rewrite E. simpl. apply Z.eqb_eq in E.
    repeat split; try reflexivity; intros; contradiction.
  - rewrite E. apply Z.eqb_neq in E.
    repeat split; try reflexivity; intros; contradiction.
Qed.

Lemma drag_is_relative_witness :
  dragStartPos (handleDrag vp1200x800 {| clientX := 700; clientY := 20 |} 2
                  (handleDrag vp1200x800 {| clientX := 10; clientY := 100 |} 2
                     two_windows_dragging))
    = Some {| x := 700; y := 20 |} /\
  exists w',
    nth_error
      (windows (handleDrag vp1200x800 {| clientX := 700; clientY := 20 |} 2
                  (handleDrag vp1200x800 {| clientX := 10; clientY := 100 |} 2
                     two_windows_dragging))) 1
      = Some w' /\
    id w' = 2%Z /\ color w' = black /\
    width w' = 300 /\ height w' = 200 /\
    isSnapped w' = false /\ parent w' = None /\
    (2%Z <> 2%Z ->
     w' = {| id := 2; color := black; top := 300; left := 500;
             width := 300; height := 200;
             isSnapped := false; parent := None |}) /\
    (2%Z = 2%Z ->
     left w' = 500 + (10 - 510) + (700 - 10) /\
     top w' = 300 + (100 - 310) + (20 - 100)).
Proof.
  apply (drag_is_relative vp1200x800 vp1200x800
           {| clientX := 10; clientY := 100 |}
           {| clientX := 700; clientY := 20 |} 2 two_windows_dragging
           {| x := 510; y := 310 |} 1
           {| id := 2; color := black; top := 300; left := 500;
              width := 300; height := 200;
              isSnapped := false; parent := None |});
    reflexivity.
Defined.

(** The two moves need not add up to the way from the first pointer to the
    last: a window at [top = 73.8] (the double [0x1.2733333333333p+6])
    dragged 400 pixels down and 400 pixels back up ends at
    [73.80000000000001] (the double [0x1.2733333333334p+6]). *)
Lemma drag_there_and_back :
  let s := {| windows := [ with_geometry corner_window
                             0x1.2733333333333p+6 0 300 200 ];
              snapIndicator := EMPTY_INDICATOR;
              draggedWindowId := Some 1%Z;
              dragStartPos := Some {| x := 100; y := 100 |} |} in
  let s' := handleDrag vp1200x800 {| clientX := 100; clientY := 100 |} 1
              (handleDrag vp1200x800 {| clientX := 100; clientY := 500 |} 1
                 s) in
  map top (windows s') = [ 0x1.2733333333334p+6 ] /\
  map left (windows s') = [ 0 ].
Proof. split; reflexivity. Qed.

(** ** Preview and commit *)

(** X15. The preview is what the drop commits.  A drag event puts the
    pointer in an edge zone of a window [w] (the first other window that
    contains it, as the source tests it, and the one its id finds), so the
    indicator shows a half of [w]; when the drop follows, the dragged window
    gets exactly the rectangle the indicator showed: same top, left, width
    and height. *)
Theorem preview_is_committed
    (vp vp' : Viewport) (e : DragEvent) (i : Z) (s : AppState) (p : Position)
    (D w : WindowData) (sd : SnapSide) :
  draggedWindowId s = Some i -> i <> 0%Z ->
  dragStartPos s = Some p -> (clientX e =? 0) = false ->
  find_id (Some i) (windows s) = Some D ->
  first_containing (clientX e) (clientY e) i (windows s) = Some w ->
  first_near (clientX e) (clientY e) w = Some sd ->
  find_id (Some (id w)) (windows s) = Some w -> id w <> 0%Z ->
  exists D',
    find_id (Some i) (windows (handleDrop vp' (handleDrag vp e i s)))
      = Some D' /\
    ind_top (snapIndicator (handleDrag vp e i s)) = Px (top D') /\
    ind_left (snapIndicator (handleDrag vp e i s)) = Px (left D') /\
    ind_width (snapIndicator (handleDrag vp e i s)) = Px (width D') /\
    ind_height (snapIndicator (handleDrag vp e i s)) = Px (height D').
Proof.
  intros Hd Hi Hp Hx HD Hw Hsd Hfw Hw0.
  rewrite (float_handleDrag_applied vp e i s p Hd Hp Hx).
  rewrite (float_resolveIndicator_panel vp _ _ i _ w sd Hw Hsd).
  destruct (float_first_containing_Some _ _ _ _ _ Hw) as [_ [Hne _]].
  destruct (float_find_id_Some _ _ _ HD) as [_ HidD].
  set (tr := translate i (clientX e - x p) (clientY e - y p)).
  assert (HD' : find_id (Some i) (map tr (windows s)) = Some (tr D))
    by (rewrite (float_find_id_map tr _ _ (float_translate_id i _ _)), HD;
        reflexivity).
  assert (HT' : find_id (Some (id w)) (map tr (windows s)) = Some w).
  { rewrite (float_find_id_map tr _ _ (float_translate_id i _ _)), Hfw. simpl.
    unfold tr. rewrite (float_translate_other _ _ _ _ Hne). reflexivity. }
  destruct (panel_half_fields sd w) as [Hshow [Hside Htgt]].
  erewrite float_handleDrop_committed;
    [| reflexivity | exact Hi | exact Hshow].
  cbn [windows snapIndicator]. unfold dropUpdate.
  rewrite HD', Hside, Htgt.
  apply truthy_true in Hw0. rewrite Hw0, HT'.
  assert (Hii : (i =? i)%Z = true) by apply Z.eqb_refl.
  assert (HidtrD : id (tr D) = i)
    by (unfold tr; rewrite float_translate_id; exact HidD).
  rewrite float_find_id_map
    by (apply float_split_applied; [reflexivity | exact HidtrD]).
  rewrite HD'. cbn [option_map]. rewrite HidtrD.
  destruct sd; simpl; rewrite Hii;
    eexists; (split; [reflexivity|]); simpl; repeat split; reflexivity.
Qed.

Lemma preview_is_committed_witness :
  exists D',
    find_id (Some 2%Z)
      (windows (handleDrop vp1200x800
                  (handleDrag vp1200x800
                     {| clientX := 10; clientY := 100 |} 2
                     two_windows_dragging)))
      = Some D' /\
    ind_top (snapIndicator (handleDrag vp1200x800
                              {| clientX := 10; clientY := 100 |} 2
                              two_windows_dragging)) = Px (top D') /\
    ind_left (snapIndicator (handleDrag vp1200x800
                               {| clientX := 10; clientY := 100 |} 2
                               two_windows_dragging)) = Px (left D') /\
    ind_width (snapIndicator (handleDrag vp1200x800
                                {| clientX := 10; clientY := 100 |} 2
                                two_windows_dragging)) = Px (width D') /\
    ind_height (snapIndicator (handleDrag vp1200x800
                                 {| clientX := 10; clientY := 100 |} 2
                                 two_windows_dragging)) = Px (height D').
Proof.
  apply (preview_is_committed vp1200x800 vp1200x800
           {| clientX := 10; clientY := 100 |} 2 two_windows_dragging
           {| x := 510; y := 310 |}
           {| id := 2; color := black; top := 300; left := 500;
              width := 300; height := 200;
              isSnapped := false; parent := None |}
           corner_window SLeft);
    try reflexivity; discriminate.
Defined.
End IEEE_properties.
